(** * OS X Collector: a shallow embedding of the core of [osxcollector.py]

    The development follows the Python source function by function:
    - the proleptic Gregorian calendar used by [datetime] and the four
      timestamp candidates of [_value_to_datetime];
    - [_normalize_val] over a model of the Python 2 / PyObjC values the
      collector reads from plists and SQLite;
    - [DictUtils.get_deep];
    - [Logger] ([log_dict], [log_error], [log_exception]) and the
      [Logger.Extra] context manager;
    - [_hash_file].

    Python exceptions are explicit: a computation that may raise returns a
    [result].  What the program takes from its environment (the clock and
    the time zone, float arithmetic, the Unicode database, [repr],
    [json.dumps], the hash functions, the files) enters through the classes
    [Runtime], [LoggerRuntime] and [Hashlib] and through the file models;
    [debugbreak()] only acts inside the debugger and is a no-op here.
    Definitions come first, theorems follow. *)

From Stdlib Require Import ZArith List Bool Ascii String Lia DecimalString.
From stdpp Require Import base option list gmap strings.

Open Scope Z_scope.

(** ** Exceptions *)

(** The exception classes the source can meet.  [KeyboardInterrupt] stands
    for the classes that do not derive from [Exception]. *)
Inductive exc : Type :=
  | KeyError
  | IndexError
  | TypeError
  | ValueError
  | UnicodeDecodeError
  | UnicodeEncodeError
  | AttributeError
  | OverflowError
  | IOError
  | RuntimeError
  | KeyboardInterrupt.

#[global] Instance exc_eq_dec : EqDecision exc.
Proof. solve_decision. Defined.

Inductive result (A : Type) : Type :=
  | Ok (a : A)
  | Raise (e : exc).

Arguments Ok {A} a.
Arguments Raise {A} e.

#[global] Instance result_ret : MRet result := fun A a => Ok a.
#[global] Instance result_bind : MBind result := fun A B k r =>
  match r with
  | Ok a => k a
  | Raise e => Raise e
  end.

#[global] Instance result_fmap : FMap result := fun A B f r =>
  match r with
  | Ok a => Ok (f a)
  | Raise e => Raise e
  end.

(** [issubclass e c]: the class of [e] derives from [c].  The two Unicode
    errors derive from [ValueError]. *)
Definition issubclass (e c : exc) : bool :=
  bool_decide (e = c)
  || (bool_decide (c = ValueError)
      && (bool_decide (e = UnicodeDecodeError) || bool_decide (e = UnicodeEncodeError))).

(** [except (c1, c2, ...)] *)
Definition catches (classes : list exc) (e : exc) : bool :=
  existsb (issubclass e) classes.

(** [except Exception] *)
Definition is_Exception (e : exc) : bool :=
  negb (bool_decide (e = KeyboardInterrupt)).

(** [try: body / except <handles>: handler]; an exception the
    clause does not name goes on to the enclosing handler. *)
Definition try_except {A} (body : result A) (handles : exc -> bool)
    (handler : exc -> result A) : result A :=
  match body with
  | Ok a => Ok a
  | Raise e => if handles e then handler e else Raise e
  end.

(** A list comprehension [[f(a) for a in l]]: the elements in order; the
    first exception ends the loop. *)
Definition map_result {A B} (f : A -> result B) : list A -> result (list B) :=
  fix each (l : list A) : result (list B) :=
    match l with
    | [] => Ok []
    | a :: l' => b ← f a; bs ← each l'; Ok (b :: bs)
    end.

(** Two sequences agree element by element. *)
Definition all2 {A B} (f : A -> B -> bool) : list A -> list B -> bool :=
  fix all2 (l : list A) (m : list B) : bool :=
    match l, m with
    | [], [] => true
    | x :: l', y :: m' => f x y && all2 l' m'
    | _, _ => false
    end.

(** The value of the first item whose key passes the test. *)
Definition assoc_find {K V} (is_key : K -> bool) : list (K * V) -> option V :=
  fix assoc_find (items : list (K * V)) : option V :=
    match items with
    | [] => None
    | (k, v) :: items' => if is_key k then Some v else assoc_find items'
    end.

(** A bare [except:]. *)
Definition any_exception (e : exc) : bool := true.

(** ** The calendar of [datetime]

    A naive [datetime] is modelled by its position on the time line: the
    number of microseconds since 0001-01-01 00:00:00 in the proleptic
    Gregorian calendar.  Comparison of two datetimes is comparison of these
    numbers, and the fields are recovered with [_ord2ymd] as in
    [datetime.py]. *)

Definition datetime := Z.
Definition timedelta := Z.

Definition US_PER_SECOND : Z := 1000000.
Definition US_PER_DAY : Z := 86400 * 1000000.

Definition _DI400Y : Z := 146097.
Definition _DI100Y : Z := 36524.
Definition _DI4Y : Z := 1461.
Definition MINYEAR : Z := 1.
Definition MAXYEAR : Z := 9999.

Definition _is_leap (year : Z) : bool :=
  (year mod 4 =? 0) && (negb (year mod 100 =? 0) || (year mod 400 =? 0)).

Definition _days_before_year (year : Z) : Z :=
  let y := year - 1 in
  y * 365 + y / 4 - y / 100 + y / 400.

Definition _DAYS_IN_MONTH (month : Z) : Z :=
  match month with
  | 1 => 31 | 2 => 28 | 3 => 31 | 4 => 30 | 5 => 31 | 6 => 30
  | 7 => 31 | 8 => 31 | 9 => 30 | 10 => 31 | 11 => 30 | 12 => 31
  | _ => 0
  end.

Definition _DAYS_BEFORE_MONTH (month : Z) : Z :=
  match month with
  | 1 => 0 | 2 => 31 | 3 => 59 | 4 => 90 | 5 => 120 | 6 => 151
  | 7 => 181 | 8 => 212 | 9 => 243 | 10 => 273 | 11 => 304 | 12 => 334
  | _ => 0
  end.

Definition _days_before_month (year month : Z) : Z :=
  _DAYS_BEFORE_MONTH month + (if (2 <? month) && _is_leap year then 1 else 0).

Definition _ymd2ord (year month day : Z) : Z :=
  _days_before_year year + _days_before_month year month + day.

(** [_ord2ymd n]: ordinal (0001-01-01 is day 1) to (year, month, day). *)
Definition _ord2ymd (n : Z) : Z * Z * Z :=
  let n := n - 1 in
  let n400 := n / _DI400Y in
  let n := n mod _DI400Y in
  let year := n400 * 400 + 1 in
  let n100 := n / _DI100Y in
  let n := n mod _DI100Y in
  let n4 := n / _DI4Y in
  let n := n mod _DI4Y in
  let n1 := n / 365 in
  let n := n mod 365 in
  let year := year + n100 * 100 + n4 * 4 + n1 in
  if (n1 =? 4) || (n100 =? 4) then (year - 1, 12, 31)
  else
    let leapyear := (n1 =? 3) && (negb (n4 =? 24) || (n100 =? 3)) in
    let month := Z.shiftr (n + 50) 5 in
    let preceding :=
      _DAYS_BEFORE_MONTH month + (if (2 <? month) && leapyear then 1 else 0) in
    if n <? preceding then
      let month := month - 1 in
      let preceding :=
        preceding - (_DAYS_IN_MONTH month
                     + (if (month =? 2) && leapyear then 1 else 0)) in
      (year, month, n - preceding + 1)
    else (year, month, n - preceding + 1).

(** [datetime(year, month, day)] at midnight. *)
Definition mk_datetime (year month day : Z) : datetime :=
  (_ymd2ord year month day - 1) * US_PER_DAY.

Definition datetime_min : datetime := mk_datetime MINYEAR 1 1.
Definition datetime_max : datetime := mk_datetime MAXYEAR 12 31 + US_PER_DAY - 1.

Definition in_datetime_range (t : Z) : bool :=
  (datetime_min <=? t) && (t <=? datetime_max).

Definition toordinal (dt : datetime) : Z := dt / US_PER_DAY + 1.
Definition dt_year (dt : datetime) : Z := fst (fst (_ord2ymd (toordinal dt))).
Definition dt_month (dt : datetime) : Z := snd (fst (_ord2ymd (toordinal dt))).
Definition dt_day (dt : datetime) : Z := snd (_ord2ymd (toordinal dt)).
Definition dt_hour (dt : datetime) : Z := (dt mod US_PER_DAY) / (3600 * US_PER_SECOND).
Definition dt_minute (dt : datetime) : Z := (dt mod (3600 * US_PER_SECOND)) / (60 * US_PER_SECOND).
Definition dt_second (dt : datetime) : Z := (dt mod (60 * US_PER_SECOND)) / US_PER_SECOND.

(** [timedelta(...)] normalises to days, seconds and microseconds and raises
    [OverflowError] when the number of days leaves +-999999999. *)
Definition mk_timedelta (us : Z) : result timedelta :=
  if (-999999999 <=? us / US_PER_DAY) && (us / US_PER_DAY <=? 999999999)
  then Ok us else Raise OverflowError.

(** [dt + td] raises [OverflowError] outside years 1..9999. *)
Definition datetime_add (dt : datetime) (td : timedelta) : result datetime :=
  if in_datetime_range (dt + td) then Ok (dt + td) else Raise OverflowError.

Definition DATETIME_2001 : datetime := mk_datetime 2001 1 1.
Definition DATETIME_1970 : datetime := mk_datetime 1970 1 1.
Definition DATETIME_1601 : datetime := mk_datetime 1601 1 1.
Definition MIN_YEAR : Z := 2004.

(** [calendar.timegm(dt.timetuple())]: whole seconds since 1970-01-01; the
    time tuple has no microsecond field. *)
Definition timegm_timetuple (dt : datetime) : Z :=
  dt / US_PER_SECOND - DATETIME_1970 / US_PER_SECOND.

(** ** Python values

    The values the collector handles: Python 2 built-ins and the PyObjC
    classes tested by [_normalize_val].  A [str] is a byte string, a
    [unicode] a sequence of code points.  A dict is the list of its items
    in iteration order (its keys are pairwise different).  Floats are kept
    abstract: their type [F] and the operations on them belong to the
    [Runtime]. *)

Scheme All for list.
Scheme All for prod.

Inductive pyval (F : Type) : Type :=
  | PNone
  | PBool (b : bool)
  | PInt (n : Z)
  | PFloat (f : F)
  | PStr (s : string)
  | PUnicode (u : list N)
  | PBuffer (b : string)
  | PList (l : list (pyval F))
  | PTuple (l : list (pyval F))
  | PSet (l : list (pyval F))
  | PDict (items : list (pyval F * pyval F))
  | NSData (bytes : string)
  | NSArray (l : list (pyval F))
  | NSDictionary (items : list (pyval F * pyval F))
  | NSDate (t : F)
  | PObject (type_name : string).

Arguments PNone {F}.
Arguments PBool {F} b.
Arguments PInt {F} n.
Arguments PFloat {F} f.
Arguments PStr {F} s.
Arguments PUnicode {F} u.
Arguments PBuffer {F} b.
Arguments PList {F} l.
Arguments PTuple {F} l.
Arguments PSet {F} l.
Arguments PDict {F} items.
Arguments NSData {F} bytes.
Arguments NSArray {F} l.
Arguments NSDictionary {F} items.
Arguments NSDate {F} t.
Arguments PObject {F} type_name.

(** What the source takes from the interpreter, the platform and the
    libraries: the clock, the local time zone, float arithmetic, the Unicode
    database and [repr]. *)
Class Runtime (F : Type) : Type := {
  (** [datetime.now()] *)
  clock_now : datetime;
  (** offset of local time from UTC, in seconds, at a given POSIX time *)
  utc_offset : Z -> Z;
  (** [bool(f)] *)
  float_nonzero : F -> bool;
  (** [float(s)] for a [str] and for a [unicode]; [None] when it raises *)
  float_of_str : string -> option F;
  float_of_unicode : list N -> option F;
  (** [timedelta(seconds=f)] and [timedelta(microseconds=f)], selected by the
      unit in microseconds *)
  float_timedelta : Z -> F -> result timedelta;
  (** [int(f)] *)
  float_int : F -> result Z;
  (** [f == g] and [f == n] *)
  float_eqb : F -> F -> bool;
  float_eq_int : F -> Z -> bool;
  (** [unichr(c).lower()] *)
  unicode_lower : N -> N;
  (** [int(u)] for a [unicode]; [None] when it raises [ValueError] *)
  int_of_unicode : list N -> option Z;
  (** [repr(val)] *)
  py_repr : pyval F -> string;
}.

(** ** Byte strings *)

Definition bytes_of (s : string) : list N :=
  map N_of_ascii (list_ascii_of_string s).

Definition is_ascii (u : list N) : bool :=
  forallb (fun c => (c <? 128)%N) u.

(** [str.lower()] in the C locale: only A-Z change. *)
Definition byte_lower (c : N) : N :=
  if ((65 <=? c) && (c <=? 90))%N then (c + 32)%N else c.

Fixpoint starts_with (p l : list N) : bool :=
  match p, l with
  | [], _ => true
  | _ :: _, [] => false
  | a :: p', b :: l' => (a =? b)%N && starts_with p' l'
  end.

(** [l.find(p) != -1] *)
Fixpoint contains (p l : list N) : bool :=
  starts_with p l
  || match l with
     | [] => false
     | _ :: l' => contains p l'
     end.

Definition dec (z : Z) : string :=
  NilZero.string_of_uint (N.to_uint (Z.to_N z)).

Definition pad2 (z : Z) : string :=
  if z <? 10 then "0" +:+ dec z else dec z.

Definition pad4 (z : Z) : string :=
  if z <? 10 then "000" +:+ dec z
  else if z <? 100 then "00" +:+ dec z
  else if z <? 1000 then "0" +:+ dec z
  else dec z.

(** [dt.strftime('%Y-%m-%d %H:%M:%S')] *)
Definition strftime (dt : datetime) : string :=
  pad4 (dt_year dt) +:+ "-" +:+ pad2 (dt_month dt) +:+ "-" +:+ pad2 (dt_day dt)
  +:+ " " +:+ pad2 (dt_hour dt) +:+ ":" +:+ pad2 (dt_minute dt) +:+ ":"
  +:+ pad2 (dt_second dt).

(** ** Timestamp inference *)

Section Timestamps.
Context {F : Type} `{RT : Runtime F}.

(** [datetime.fromtimestamp(t)]: local wall-clock time, [ValueError]
    outside the years [datetime] supports. *)
Definition fromtimestamp (t : Z) : result datetime :=
  let local := DATETIME_1970 + (t + utc_offset t) * US_PER_SECOND in
  if in_datetime_range local then Ok local else Raise ValueError.

(** [datetime.now() + timedelta(days=1)] *)
Definition tomorrow : result datetime :=
  td ← mk_timedelta US_PER_DAY; datetime_add clock_now td.

(** The decorator [_timestamp_errorhandling]: a bare [except] turns every
    exception of [func] and of the check into [None]. *)
Definition _timestamp_errorhandling {A} (func : A -> result datetime)
    (a : A) : option datetime :=
  match func a with
  | Raise _ => None
  | Ok dt =>
      match tomorrow with
      | Raise _ => None
      | Ok tomorrow =>
          if (dt_year dt <? MIN_YEAR) || (tomorrow <? dt) then None
          else Some dt
      end
  end.

(** The decorator [_convert_to_local]. *)
Definition _convert_to_local {A} (func : A -> result datetime)
    (a : A) : result datetime :=
  dt ← func a; fromtimestamp (timegm_timetuple dt).

(** [timedelta(seconds=val)] ([unit] = 10^6) and
    [timedelta(microseconds=val)] ([unit] = 1). *)
Definition timedelta_of (unit : Z) (val : pyval F) : result timedelta :=
  match val with
  | PInt n => mk_timedelta (n * unit)
  | PBool b => mk_timedelta ((if b then 1 else 0) * unit)
  | PFloat f => float_timedelta unit f
  | _ => Raise TypeError
  end.

Definition _seconds_since_2001_to_datetime : pyval F -> option datetime :=
  _timestamp_errorhandling (_convert_to_local (fun seconds =>
    td ← timedelta_of US_PER_SECOND seconds; datetime_add DATETIME_2001 td)).

Definition _seconds_since_epoch_to_datetime : pyval F -> option datetime :=
  _timestamp_errorhandling (_convert_to_local (fun seconds =>
    td ← timedelta_of US_PER_SECOND seconds; datetime_add DATETIME_1970 td)).

Definition _microseconds_since_epoch_to_datetime : pyval F -> option datetime :=
  _timestamp_errorhandling (_convert_to_local (fun microseconds =>
    td ← timedelta_of 1 microseconds; datetime_add DATETIME_1970 td)).

Definition _microseconds_since_1601_to_datetime : pyval F -> option datetime :=
  _timestamp_errorhandling (_convert_to_local (fun microseconds =>
    td ← timedelta_of 1 microseconds; datetime_add DATETIME_1601 td)).

(** [a or b] on optional datetimes: a datetime is always true. *)
Definition py_or (a b : option datetime) : option datetime :=
  match a with
  | Some dt => Some dt
  | None => b
  end.

(** [val = float(val)] for a [basestring]; [None] when [float] raises. *)
Definition float_if_basestring (val : pyval F) : option (pyval F) :=
  match val with
  | PStr s => PFloat <$> float_of_str s
  | PUnicode u => PFloat <$> float_of_unicode u
  | _ => Some val
  end.

Definition _value_to_datetime (val : pyval F) : option datetime :=
  match float_if_basestring val with
  | None => None
  | Some val =>
      py_or (_microseconds_since_epoch_to_datetime val)
        (py_or (_microseconds_since_1601_to_datetime val)
           (py_or (_seconds_since_epoch_to_datetime val)
              (_seconds_since_2001_to_datetime val)))
  end.

(** [strftime] of Python 2 raises [ValueError] before 1900; the bare
    [except] then returns [None]. *)
Definition _datetime_to_string (dt : datetime) : pyval F :=
  if dt_year dt <? 1900 then PNone else PStr (strftime dt).

End Timestamps.


(** ** Equality of values *)

Section Equality.
Context {F : Type} `{RT : Runtime F}.

(** The value of a number, when it is an [int] (a [bool] is one). *)
Definition as_int (val : pyval F) : option Z :=
  match val with
  | PInt n => Some n
  | PBool b => Some (if b then 1 else 0)
  | _ => None
  end.

(** [a == b] on built-in values.  Numbers compare by value; a [str] equals
    a [unicode] when it is ASCII and has the same characters; lists and
    tuples compare element by element; two dicts are equal when they have
    as many items and every key of the first has an equal value in the
    second.  Sets, PyObjC objects and unrecognised objects compare by
    identity, which is not modelled: they are never equal here. *)
Fixpoint py_eqb (a b : pyval F) {struct a} : bool :=
  match a, b with
  | PNone, PNone => true
  | (PInt _ | PBool _), (PInt _ | PBool _) => bool_decide (as_int a = as_int b)
  | PFloat f, PFloat g => float_eqb f g
  | PFloat f, (PInt _ | PBool _) => float_eq_int f (default 0 (as_int b))
  | (PInt _ | PBool _), PFloat f => float_eq_int f (default 0 (as_int a))
  | PStr s, PStr t => bool_decide (s = t)
  | PUnicode u, PUnicode v => bool_decide (u = v)
  | PStr s, PUnicode u | PUnicode u, PStr s =>
      is_ascii (bytes_of s) && bool_decide (bytes_of s = u)
  | PBuffer s, PBuffer t => bool_decide (s = t)
  | PList l, PList m | PTuple l, PTuple m => all2 py_eqb l m
  | PDict items, PDict items' =>
      bool_decide (length items = length items')
      && forallb
           (fun '(k, v) =>
              match assoc_find (py_eqb k) items' with
              | Some v' => py_eqb v v'
              | None => false
              end)
           items
  | _, _ => false
  end.

End Equality.

(** ** Value normalisation *)

Section Normalize.
Context {F : Type} `{RT : Runtime F}.

(** [bool(val)] *)
Definition py_bool (val : pyval F) : bool :=
  match val with
  | PNone => false
  | PBool b => b
  | PInt n => negb (n =? 0)
  | PFloat f => float_nonzero f
  | PStr s => negb (bool_decide (s = ""%string))
  | PUnicode u => negb (bool_decide (u = []))
  | PBuffer b => negb (bool_decide (b = ""%string))
  | PList l | PTuple l | PSet l | NSArray l => negb (bool_decide (length l = 0%nat))
  | PDict items | NSDictionary items => negb (bool_decide (length items = 0%nat))
  | NSData bytes => negb (bool_decide (bytes = ""%string))
  | NSDate _ => true
  | PObject _ => true
  end.

Definition TIMESTAMP_HINTS : list string :=
  ["time"; "utc"; "date"; "accessed"]%string.

(** [key.lower()]; only strings have the method. *)
Definition py_lower (key : pyval F) : result (list N) :=
  match key with
  | PStr s => Ok (map byte_lower (bytes_of s))
  | PUnicode u => Ok (map unicode_lower u)
  | _ => Raise AttributeError
  end.

(** [key and any([-1 != key.lower().find(hint) for hint in [...]])] *)
Definition key_hints_timestamp (key : pyval F) : result bool :=
  if py_bool key then
    lowered ← py_lower key;
    Ok (existsb (fun hint => contains (bytes_of hint) lowered) TIMESTAMP_HINTS)
  else Ok false.

(** [unicode(val)] on a [str] or a [buffer] decodes its bytes with the
    default ASCII codec. *)
Definition ascii_decode (s : string) : result (list N) :=
  if is_ascii (bytes_of s) then Ok (bytes_of s) else Raise UnicodeDecodeError.

(** UTF-8 and UTF-16LE decoding with [errors='ignore'], on the bytes an
    ASCII [encode] produces: every byte is below 128, so UTF-8 decodes each
    byte to itself and no UTF-16 code unit is a surrogate; a trailing odd
    byte is dropped. *)
Definition utf_8_ignore (bytes : list N) : list N := bytes.

Fixpoint utf_16le_ignore (bytes : list N) : list N :=
  match bytes with
  | lo :: hi :: rest => (lo + 256 * hi)%N :: utf_16le_ignore rest
  | _ => []
  end.

(** [u.decode(encoding=..., errors='ignore')] on a [unicode] [u]: Python 2
    first encodes [u] with the ASCII codec, which raises
    [UnicodeEncodeError] on a code point above 127, and then decodes. *)
Definition unicode_decode (codec : list N -> list N) (u : list N)
    : result (list N) :=
  if is_ascii u then Ok (codec u) else Raise UnicodeEncodeError.

(** The body of the [try] statement of [_normalize_val]: the dispatch on
    the type of [val]; [normalize] is [_normalize_val] itself, for the
    elements of arrays and dictionaries. *)
Definition normalize_dispatch
    (normalize : pyval F -> pyval F -> result (pyval F)) (val : pyval F)
    : result (pyval F) :=
  match val with
  | PStr s =>
      try_except
        (u ← ascii_decode s; PUnicode <$> unicode_decode utf_8_ignore u)
        (fun e => issubclass e UnicodeEncodeError)
        (fun _ => Ok val)
  | PUnicode u =>
      try_except
        (PUnicode <$> unicode_decode utf_8_ignore u)
        (fun e => issubclass e UnicodeEncodeError)
        (fun _ => Ok val)
  | PBuffer b =>
      try_except
        (u ← ascii_decode b; PUnicode <$> unicode_decode utf_16le_ignore u)
        any_exception
        (fun _ => Ok (PStr (py_repr val)))
  | PInt _ | PBool _ | PFloat _ => Ok val
  | NSData bytes =>
      Ok (PStr ("<NSData bytes:" +:+ dec (Z.of_nat (String.length bytes)) +:+ ">"))
  | NSArray l =>
      PList <$> map_result (fun stuff => normalize stuff PNone) l
  | NSDictionary items | PDict items =>
      PDict <$>
        map_result (fun '(k, v) => v' ← normalize v k; Ok (k, v')) items
  | NSDate _ => Ok (PStr (py_repr val))
  | _ =>
      if negb (py_bool val) then Ok (PStr "")
      else Ok (PStr (py_repr val))
  end.

(** [_normalize_val(val, key=None)].  The hint test and the timestamp
    conversion stand before the [try]; [except Exception] answers with
    [repr(val)].  The handler also writes a diagnostic line to [sys.stderr]
    and calls [debugbreak()]: the diagnostic is not part of the result and is
    left out, [sys.stderr] being taken to accept it. *)
Fixpoint _normalize_val (val : pyval F) (key : pyval F) {struct val}
    : result (pyval F) :=
  hinted ← key_hints_timestamp key;
  match (if hinted : bool then _value_to_datetime val else None) with
  | Some ts => Ok (_datetime_to_string ts)
  | None =>
      try_except (normalize_dispatch _normalize_val val)
        is_Exception
        (fun _ => Ok (PStr (py_repr val)))
  end.

End Normalize.

(** ** DictUtils *)

(** [l.split(sep)]: the pieces of [l] between occurrences of [sep]; there is
    always at least one piece. *)
Fixpoint split_on {A} (is_sep : A -> bool) (l : list A) : list (list A) :=
  match l with
  | [] => [[]]
  | a :: l' =>
      if is_sep a then [] :: split_on is_sep l'
      else match split_on is_sep l' with
           | piece :: pieces => (a :: piece) :: pieces
           | [] => [[a]]
           end
  end.

Definition is_space (c : N) : bool :=
  ((c =? 32) || ((9 <=? c) && (c <=? 13)))%N.

Definition is_digit (c : N) : bool :=
  ((48 <=? c) && (c <=? 57))%N.

Definition digits_value (ds : list N) : Z :=
  fold_left (fun acc d => acc * 10 + (Z.of_N d - 48)) ds 0.

Fixpoint lstrip (l : list N) : list N :=
  match l with
  | c :: l' => if is_space c then lstrip l' else l
  | [] => []
  end.

Definition strip (l : list N) : list N :=
  rev (lstrip (rev (lstrip l))).

(** [int(s)] on the bytes of a [str]: surrounding white space, an optional
    sign and decimal digits; [None] stands for [ValueError]. *)
Definition int_of_bytes (s : list N) : option Z :=
  let digits (neg : bool) (ds : list N) : option Z :=
    match ds with
    | [] => None
    | _ :: _ =>
        if forallb is_digit ds
        then Some (if neg then - digits_value ds else digits_value ds)
        else None
    end in
  match strip s with
  | 45%N :: ds => digits true ds
  | 43%N :: ds => digits false ds
  | ds => digits false ds
  end.

Section DictUtils.
Context {F : Type} `{RT : Runtime F}.

(** Lists, sets and dicts cannot be hashed. *)
Definition hashable (val : pyval F) : bool :=
  match val with
  | PList _ | PSet _ | PDict _ | NSArray _ | NSDictionary _ => false
  | _ => true
  end.

Definition dict_get (items : list (pyval F * pyval F)) (key : pyval F)
    : option (pyval F) :=
  assoc_find (py_eqb key) items.

(** [seq[i]] for an integer [i]: a negative index counts from the end. *)
Definition seq_index {A} (l : list A) (i : Z) : result A :=
  let j := if i <? 0 then i + Z.of_nat (length l) else i in
  if j <? 0 then Raise IndexError
  else match l !! Z.to_nat j with
       | Some a => Ok a
       | None => Raise IndexError
       end.

(** [x[link]].  Dicts look the key up ([KeyError], or [TypeError] for a key
    that cannot be hashed); sequences and strings want an integer
    ([TypeError] otherwise) in range ([IndexError] otherwise); nothing else
    can be subscripted ([TypeError]). *)
Definition getitem (x link : pyval F) : result (pyval F) :=
  let by_index {A} (l : list A) (wrap : A -> pyval F) : result (pyval F) :=
    match as_int link with
    | Some i => wrap <$> seq_index l i
    | None => Raise TypeError
    end in
  match x with
  | PDict items | NSDictionary items =>
      if hashable link then
        match dict_get items link with
        | Some v => Ok v
        | None => Raise KeyError
        end
      else Raise TypeError
  | PList l | PTuple l | NSArray l => by_index l (fun v => v)
  | PStr s | PBuffer s =>
      by_index (list_ascii_of_string s) (fun c => PStr (String c ""))
  | PUnicode u => by_index u (fun c => PUnicode [c])
  | _ => Raise TypeError
  end.

(** [int(link)] *)
Definition py_int (link : pyval F) : result Z :=
  match link with
  | PInt n => Ok n
  | PBool b => Ok (if b then 1 else 0)
  | PFloat f => float_int f
  | PStr s | PBuffer s =>
      match int_of_bytes (bytes_of s) with
      | Some n => Ok n
      | None => Raise ValueError
      end
  | PUnicode u =>
      match int_of_unicode u with
      | Some n => Ok n
      | None => Raise ValueError
      end
  | _ => Raise TypeError
  end.

(** [for link in chain]: the elements a [for] loop goes through. *)
Definition py_iter (chain : pyval F) : result (list (pyval F)) :=
  match chain with
  | PList l | PTuple l | PSet l | NSArray l => Ok l
  | PDict items | NSDictionary items => Ok (fst <$> items)
  | PStr s | PBuffer s =>
      Ok ((fun c => PStr (String c "")) <$> list_ascii_of_string s)
  | PUnicode u => Ok ((fun c => PUnicode [c]) <$> u)
  | _ => Raise TypeError
  end.

Definition _link_path_to_chain (path : pyval F) : result (pyval F) :=
  match path with
  | PStr "" | PUnicode [] => Ok (PList [])
  | PList _ | PTuple _ | PSet _ => Ok path
  | PStr s =>
      Ok (PList ((fun piece => PStr (string_of_list_ascii piece))
                   <$> split_on (fun c => bool_decide (c = "."%char))
                         (list_ascii_of_string s)))
  | PUnicode u =>
      Ok (PList (PUnicode <$> split_on (fun c => (c =? 46)%N) u))
  | _ => Raise AttributeError
  end.

(** The body of the [for] loop of [_get_deep_by_chain]. *)
Definition follow_link (x link : pyval F) : result (pyval F) :=
  try_except (getitem x link)
    (catches [KeyError; TypeError])
    (fun _ => i ← py_int link; getitem x (PInt i)).

Fixpoint follow_chain (x : pyval F) (links : list (pyval F))
    : result (pyval F) :=
  match links with
  | [] => Ok x
  | link :: links' => x' ← follow_link x link; follow_chain x' links'
  end.

Definition _get_deep_by_chain (x chain default : pyval F)
    : result (pyval F) :=
  match chain with
  | PList [] => Ok default
  | _ =>
      try_except
        (links ← py_iter chain; follow_chain x links)
        (catches [KeyError; TypeError; ValueError])
        (fun _ => Ok default)
  end.

Definition get_deep (x path default : pyval F) : result (pyval F) :=
  chain ← _link_path_to_chain path;
  _get_deep_by_chain x chain default.

End DictUtils.

(** ** Logger *)

(** A file object open for writing: what has been written so far, and when
    the next [write] or [flush] fails (disk full, closed file, ...), which
    may depend on what was written before. *)
Record pyfile : Type := {
  written : list string;
  write_fault : list string -> string -> option exc;
  flush_fault : list string -> option exc;
}.

Definition file_write (f : pyfile) (s : string) : result unit * pyfile :=
  match write_fault f (written f) s with
  | Some e => (Raise e, f)
  | None =>
      (Ok (), {| written := written f ++ [s];
                 write_fault := write_fault f;
                 flush_fault := flush_fault f |})
  end.

Definition file_flush (f : pyfile) : result unit :=
  match flush_fault f (written f) with
  | Some e => Raise e
  | None => Ok ()
  end.

(** What [Logger] takes from the libraries, for records with values in [V]:
    [json.dumps], the wrapping of a message string as a value, the text
    [log_exception] builds from [sys.exc_info()] and [repr] of the extras. *)
Class LoggerRuntime (V : Type) : Type := {
  dumps : gmap string V -> result string;
  str_value : string -> V;
  format_exc_info : string -> exc -> string;
  repr_extras : gmap string V -> string;
}.

Section Logger.
Context {V : Type} `{LR : LoggerRuntime V}.

(** Dict objects live in a heap and are passed by reference, so that the
    caller of [log_dict] sees what [record.update] did. *)
Definition loc := positive.

Record logger_state : Type := {
  heap : gmap loc (gmap string V);
  extras : gmap string V;          (* Logger.Extra.extras *)
  output_file : pyfile;            (* Logger.output_file *)
  lines_written : Z;               (* Logger.lines_written *)
  stderr : pyfile;                 (* sys.stderr *)
  DEBUG_MODE : bool;
}.

(** A statement: run in a state, it returns or raises, in a new state. *)
Record prog (A : Type) : Type :=
  Prog { run : logger_state -> result A * logger_state }.
Arguments Prog {A} run.
Arguments run {A} p st.

#[global] Instance prog_ret : MRet prog := fun A a => Prog (fun st => (Ok a, st)).
#[global] Instance prog_bind : MBind prog := fun A B k m =>
  Prog (fun st =>
    match run m st with
    | (Ok a, st') => run (k a) st'
    | (Raise e, st') => (Raise e, st')
    end).

Definition raise {A} (e : exc) : prog A := Prog (fun st => (Raise e, st)).

Definition lift {A} (r : result A) : prog A := Prog (fun st => (r, st)).

(** [try: body / except <handles> as e: handler e] *)
Definition py_try {A} (body : prog A) (handles : exc -> bool)
    (handler : exc -> prog A) : prog A :=
  Prog (fun st =>
    match run body st with
    | (Ok a, st') => (Ok a, st')
    | (Raise e, st') =>
        if handles e then run (handler e) st' else (Raise e, st')
    end).

Definition set_heap (h : gmap loc (gmap string V)) (st : logger_state) :=
  {| heap := h; extras := extras st; output_file := output_file st;
     lines_written := lines_written st; stderr := stderr st;
     DEBUG_MODE := DEBUG_MODE st |}.

Definition set_extras (e : gmap string V) (st : logger_state) :=
  {| heap := heap st; extras := e; output_file := output_file st;
     lines_written := lines_written st; stderr := stderr st;
     DEBUG_MODE := DEBUG_MODE st |}.

Definition set_output_file (f : pyfile) (st : logger_state) :=
  {| heap := heap st; extras := extras st; output_file := f;
     lines_written := lines_written st; stderr := stderr st;
     DEBUG_MODE := DEBUG_MODE st |}.

Definition set_lines_written (n : Z) (st : logger_state) :=
  {| heap := heap st; extras := extras st; output_file := output_file st;
     lines_written := n; stderr := stderr st;
     DEBUG_MODE := DEBUG_MODE st |}.

Definition set_stderr (f : pyfile) (st : logger_state) :=
  {| heap := heap st; extras := extras st; output_file := output_file st;
     lines_written := lines_written st; stderr := f;
     DEBUG_MODE := DEBUG_MODE st |}.

(** [debugbreak()] enters the debugger when [DEBUG_MODE] is set; the
    debugger session is not part of the program. *)
Definition debugbreak : prog unit := mret ().

(** A dict display [{key: val}] allocates a new dict object. *)
Definition new_dict (d : gmap string V) : prog loc :=
  Prog (fun st =>
    let l := fresh (dom (heap st)) in
    (Ok l, set_heap (<[l := d]> (heap st)) st)).

(** [record.update(Logger.Extra.extras)]; an object that is not a dict has
    no [update]. *)
Definition record_update (record : loc) : prog unit :=
  Prog (fun st =>
    match heap st !! record with
    | Some d => (Ok (), set_heap (<[record := extras st ∪ d]> (heap st)) st)
    | None => (Raise AttributeError, st)
    end).

(** [dumps(record)] *)
Definition dumps_record (record : loc) : prog string :=
  Prog (fun st =>
    match heap st !! record with
    | Some d => (dumps d, st)
    | None => (Raise TypeError, st)
    end).

Definition output_write (s : string) : prog unit :=
  Prog (fun st =>
    let (r, f) := file_write (output_file st) s in (r, set_output_file f st)).

Definition output_flush : prog unit :=
  Prog (fun st => (file_flush (output_file st), st)).

Definition stderr_write (s : string) : prog unit :=
  Prog (fun st =>
    let (r, f) := file_write (stderr st) s in (r, set_stderr f st)).

Definition incr_lines_written : prog unit :=
  Prog (fun st => (Ok (), set_lines_written (lines_written st + 1) st)).

(** Reading the globals [Logger.Extra.extras] and [DEBUG_MODE]. *)
Definition get_extras : prog (gmap string V) :=
  Prog (fun st => (Ok (extras st), st)).

Definition get_DEBUG_MODE : prog bool :=
  Prog (fun st => (Ok (DEBUG_MODE st), st)).

Definition newline : string := String (ascii_of_nat 10) "".

(** The body of the [try] statement of [log_dict]. *)
Definition write_line (record : loc) : prog unit :=
  s ← dumps_record record;
  output_write s;;
  output_write newline;;
  output_flush;;
  incr_lines_written.

(** [log_error] and [log_exception], given the [log_dict] they call. *)
Definition log_error_with (log_dict : loc -> prog unit) (message : string)
    : prog unit :=
  record ← new_dict {[ "osxcollector_error"%string := str_value message ]};
  log_dict record;;
  stderr_write "[ERROR] ";;
  stderr_write message;;
  extras ← get_extras;
  stderr_write (" - " +:+ repr_extras extras +:+ newline).

Definition log_exception_with (log_dict : loc -> prog unit) (e : exc)
    (message : string) : prog unit :=
  let to_print := format_exc_info message e in
  log_error_with log_dict to_print.

(** [Logger.log_dict].  [depth] is the number of nested activations of
    [log_dict] the interpreter's recursion limit still allows; when none is
    left the call raises [RuntimeError] (maximum recursion depth
    exceeded). *)
Fixpoint log_dict (depth : nat) (record : loc) : prog unit :=
  match depth with
  | O => raise RuntimeError
  | S depth' =>
      record_update record;;
      py_try (write_line record)
        is_Exception
        (fun e =>
           debugbreak;;
           log_exception_with (log_dict depth') e "")
  end.

Definition log_error (depth : nat) : string -> prog unit :=
  log_error_with (log_dict depth).

Definition log_exception (depth : nat) : exc -> string -> prog unit :=
  log_exception_with (log_dict depth).

Definition log_warning (depth : nat) (message : string) : prog unit :=
  record ← new_dict {[ "osxcollector_warn"%string := str_value message ]};
  log_dict depth record;;
  debug ← get_DEBUG_MODE;
  if debug : bool then
    stderr_write "[WARN] ";;
    stderr_write message;;
    extras ← get_extras;
    stderr_write (" - " +:+ repr_extras extras +:+ newline)
  else mret ().

(** *** Logger.Extra *)

Record Extra : Type := { key : string; val : V }.

Definition Extra__enter__ (self : Extra) : prog unit :=
  Prog (fun st => (Ok (), set_extras (<[key self := val self]> (extras st)) st));;
  debug ← get_DEBUG_MODE;
  if debug : bool then
    s ← lift (dumps {[ key self := val self ]});
    stderr_write s;;
    stderr_write newline
  else mret ().

(** [del Logger.Extra.extras[self.key]] raises [KeyError] when the key is
    not there. *)
Definition Extra__exit__ (self : Extra) : prog unit :=
  Prog (fun st =>
    match extras st !! key self with
    | Some _ => (Ok (), set_extras (delete (key self) (extras st)) st)
    | None => (Raise KeyError, st)
    end).

(** [with Logger.Extra(key, val): body].  [__exit__] runs on every way out
    of the body; it returns [None], so an exception of the body goes on
    after it. *)
Definition with_Extra {A} (k : string) (v : V) (body : prog A) : prog A :=
  let self := {| key := k; val := v |} in
  Extra__enter__ self;;
  Prog (fun st =>
    match run body st with
    | (Ok a, st') => run (Extra__exit__ self;; mret a) st'
    | (Raise e, st') => run (Extra__exit__ self;; raise e) st'
    end).

(** The two states differ at most in the output file. *)
Definition same_but_output (st st' : logger_state) : Prop :=
  heap st' = heap st /\ extras st' = extras st
  /\ lines_written st' = lines_written st /\ stderr st' = stderr st
  /\ DEBUG_MODE st' = DEBUG_MODE st.

(** A statement keeps a property of the state, however it ends. *)
Definition preserves {A} (P : logger_state -> Prop) (p : prog A) : Prop :=
  forall st res st', P st -> run p st = (res, st') -> P st'.

End Logger.

Arguments logger_state : clear implicits.
Arguments prog : clear implicits.
Arguments Extra : clear implicits.
Arguments Prog {V A} run.
Arguments run {V A} p st.

(** ** File hashing *)

(** [hashlib]: a hash object is its algorithm and the bytes fed to it so
    far ([update(a); update(b)] is [update(a + b)]); [hexdigest] is the
    algorithm's digest of these bytes.  The digest functions themselves are
    the library's. *)
Inductive algorithm : Type := MD5 | SHA1 | SHA256.

Record hasher : Type := { alg : algorithm; fed : string }.

Class Hashlib : Type := {
  digest : algorithm -> string -> string;
}.

Definition md5 : hasher := {| alg := MD5; fed := "" |}.
Definition sha1 : hasher := {| alg := SHA1; fed := "" |}.
Definition sha256 : hasher := {| alg := SHA256; fed := "" |}.

Definition hash_update (h : hasher) (chunk : string) : hasher :=
  {| alg := alg h; fed := fed h +:+ chunk |}.

Section HashFile.
Context `{HL : Hashlib}.

Definition hexdigest (h : hasher) : string := digest (alg h) (fed h).

(** An open file is what its successive [f.read(1024*1024)] return: a chunk
    or an exception; past the end of the list, [read] returns the empty
    string. *)
Definition open_file := list (result string).

(** [for chunk in iter(partial(f.read, 1024*1024), '')], with the inner loop
    over the hashers. *)
Fixpoint hash_chunks (f : open_file) (hashers : list hasher)
    : result (list hasher) :=
  match f with
  | [] => Ok hashers
  | Raise e :: _ => Raise e
  | Ok chunk :: f' =>
      if bool_decide (chunk = ""%string) then Ok hashers
      else hash_chunks f' (map (fun hasher => hash_update hasher chunk) hashers)
  end.

(** [open_rb file_path] is [open(file_path, 'rb')].  The handler's
    [debugbreak()] does nothing outside the debugger. *)
Definition _hash_file (open_rb : string -> result open_file)
    (file_path : string) : result (list string) :=
  let hashers := [md5; sha1; sha256] in
  try_except
    (f ← open_rb file_path;
     hashers ← (hash_chunks f hashers : result (list hasher));
     Ok (map hexdigest hashers))
    any_exception
    (fun _ => Ok [""; ""; ""]%string).

(** The bytes of a file whose reads all succeed. *)
Fixpoint file_content (f : open_file) : string :=
  match f with
  | Ok chunk :: f' =>
      if bool_decide (chunk = ""%string) then "" else chunk +:+ file_content f'
  | _ => ""
  end.

End HashFile.

(** ** Paths and directories *)

(** [s.startswith(prefix)] and [s.endswith(suffix)] *)
Fixpoint startswith (s prefix : string) : bool :=
  match prefix, s with
  | EmptyString, _ => true
  | String a prefix', String b s' => bool_decide (a = b) && startswith s' prefix'
  | String _ _, EmptyString => false
  end.

Definition endswith (s suffix : string) : bool :=
  startswith (String.rev s) (String.rev suffix).

Definition _relative_path (path : string) : string :=
  if startswith path "/" then
    match path with
    | String _ rest => rest          (* path[1:] *)
    | EmptyString => EmptyString
    end
  else path.

(** [os.path.join(a, *p)] of [posixpath]: a component that starts with a
    slash replaces what was joined before it. *)
Definition os_path_join (a : string) (p : list string) : string :=
  fold_left
    (fun path b =>
       if startswith b "/" then b
       else if bool_decide (path = ""%string) || endswith path "/" then path +:+ b
       else path +:+ "/" +:+ b)
    p a.

Definition pathjoin (path : string) (args : list string) : string :=
  match args with
  | _ :: _ => os_path_join path (map _relative_path args)
  | [] => os_path_join path []
  end.

(** What the collector asks the file system: [os.path.isdir],
    [os.path.isfile], [os.listdir] (which may raise), the modification and
    creation times as [datetime.fromtimestamp(os.path.getmtime(path))] and
    [datetime.fromtimestamp(os.path.getctime(path))] give them (they may
    raise), and [open(path, 'rb')]. *)
Class FileSystem : Type := {
  os_path_isdir : string -> bool;
  os_path_isfile : string -> bool;
  os_listdir : string -> result (list string);
  file_mtime : string -> result datetime;
  file_ctime : string -> result datetime;
  open_rb : string -> result (list (result string));
}.

Record HomeDir : Type := { user_name : string; path : string }.

Section Directories.
Context `{FS : FileSystem}.

Definition ignored_files : list string := [".DS_Store"; ".localized"]%string.

(** [listdir(dir_path)] *)
Definition listdir (dir_path : string) : result (list string) :=
  if negb (os_path_isdir dir_path) then Ok []
  else
    vals ← (os_listdir dir_path : result (list string));
    Ok (filter (fun val => val ∉ ignored_files) vals).

(** [_get_homedirs()], for the global [ROOT_PATH]. *)
Definition _get_homedirs (ROOT_PATH : string) : result (list HomeDir) :=
  let users_dir_path := pathjoin ROOT_PATH ["Users"%string] in
  names ← (listdir users_dir_path : result (list string));
  Ok (map
        (fun name =>
           {| user_name := name;
              path := pathjoin ROOT_PATH ["Users"%string; name] |})
        (filter (fun name => negb (startswith name ".")) names)).

End Directories.

(** ** File information *)

Section FileInfo.
Context {F : Type} `{RT : Runtime F} `{HL : Hashlib} `{FS : FileSystem}.

(** [_get_file_info(file_path)]: the record as a map from its keys. *)
Definition _get_file_info (file_path : string)
    : result (gmap string (pyval F)) :=
  let empty : pyval F := PStr "" in
  '(md5_hash, sha1_hash, sha2_hash, mtime, ctime) ←
    (if os_path_isfile file_path then
       mtime ← _datetime_to_string <$> file_mtime file_path;
       ctime ← _datetime_to_string <$> file_ctime file_path;
       digests ← _hash_file open_rb file_path;
       match digests with
       | [md5_hash; sha1_hash; sha2_hash] =>
           Ok (PStr md5_hash, PStr sha1_hash, PStr sha2_hash, mtime, ctime)
       | _ => Raise ValueError       (* unpacking needs three values *)
       end
     else Ok (empty, empty, empty, empty, empty));
  Ok (<["md5"%string := md5_hash]>
        (<["sha1"%string := sha1_hash]>
           (<["sha2"%string := sha2_hash]>
              (<["file_path"%string := PStr file_path]>
                 (<["mtime"%string := mtime]>
                    (<["ctime"%string := ctime]> ∅)))))).

End FileInfo.

(** ** Collector *)

Section Collector.
Context {V : Type} `{LR : LoggerRuntime V}.

(** The decorator [_foreach_homedir]: [func] is the decorated method with
    [self] and its other arguments fixed; [homedirs] is [self.homedirs]. *)
Fixpoint _foreach_homedir (depth : nat) (func : HomeDir -> prog V unit)
    (homedirs : list HomeDir) : prog V unit :=
  match homedirs with
  | [] => mret ()
  | homedir :: homedirs' =>
      with_Extra "osxcollector_username" (str_value (user_name homedir))
        (py_try (func homedir) is_Exception
           (fun e => log_exception depth e ""));;
      _foreach_homedir depth func homedirs'
  end.

(** The collection methods of a [Collector]. *)
Record Collector : Type := {
  _collect_system_info : prog V unit;
  _collect_kext : prog V unit;
  _collect_startup : prog V unit;
  _collect_applications : prog V unit;
  _collect_quarantines : prog V unit;
  _collect_downloads : prog V unit;
  _collect_chrome : prog V unit;
  _collect_firefox : prog V unit;
  _collect_safari : prog V unit;
  _collect_accounts : prog V unit;
  _collect_mail : prog V unit;
}.

Definition sections (self : Collector) : list (string * prog V unit) :=
  [("system_info", _collect_system_info self);
   ("kext", _collect_kext self);
   ("startup", _collect_startup self);
   ("applications", _collect_applications self);
   ("quarantines", _collect_quarantines self);
   ("downloads", _collect_downloads self);
   ("chrome", _collect_chrome self);
   ("firefox", _collect_firefox self);
   ("safari", _collect_safari self);
   ("accounts", _collect_accounts self);
   ("mail", _collect_mail self)]%string.

(** The [for] loop of [collect] over the sections that are left.
    [section_list] is empty for [None]. *)
Fixpoint collect_sections (depth : nat) (section_list : list string)
    (sections : list (string * prog V unit)) : prog V unit :=
  match sections with
  | [] => mret ()
  | (section_name, collection_method) :: sections' =>
      with_Extra "osxcollector_section" (str_value section_name)
        (if negb (bool_decide (section_list = []))
            && bool_decide (section_name ∉ section_list)
         then mret ()                                      (* continue *)
         else
           py_try collection_method is_Exception
             (fun section_e =>
                debugbreak;;
                log_exception depth section_e "failed section"));;
      collect_sections depth section_list sections'
  end.

Definition collect (depth : nat) (self : Collector)
    (section_list : list string) : prog V unit :=
  collect_sections depth section_list (sections self).

End Collector.

(** ** Relations between the states before and after a statement *)

Section StateRelations.
Context {V : Type}.

(** What logging may do to the state: the extras and the debug flag stay,
    the output file and [sys.stderr] only grow, the line counter does not go
    down. *)
Definition logged (st st' : logger_state V) : Prop :=
  extras st' = extras st
  /\ DEBUG_MODE st' = DEBUG_MODE st
  /\ written (output_file st) `prefix_of` written (output_file st')
  /\ written (stderr st) `prefix_of` written (stderr st')
  /\ lines_written st <= lines_written st'.

(** The extras and the debug flag are as before. *)
Definition same_context (st st' : logger_state V) : Prop :=
  extras st' = extras st /\ DEBUG_MODE st' = DEBUG_MODE st.

(** However the statement ends, the states before and after are related. *)
Definition relates {A} (R : logger_state V -> logger_state V -> Prop)
    (p : prog V A) : Prop :=
  forall st res st', run p st = (res, st') -> R st st'.

End StateRelations.

(** ** Classes of values used in the statements *)

Section ValueClasses.
Context {F : Type} `{RT : Runtime F}.

Definition is_string (val : pyval F) : bool :=
  match val with
  | PStr _ | PUnicode _ => true
  | _ => false
  end.

(** A field hint as the callers of [_normalize_val] pass it: a string, or
    nothing ([None] or another false value). *)
Definition hint_is_string_or_false (key : pyval F) : bool :=
  is_string key || negb (py_bool key).

(** The key carries no timestamp hint. *)
Definition no_timestamp_hint (key : pyval F) : bool :=
  match key_hints_timestamp key with
  | Ok false => true
  | _ => false
  end.

(** No two of the keys are equal: the keys of a dict. *)
Fixpoint distinct_keys (keys : list (pyval F)) : bool :=
  match keys with
  | [] => true
  | k :: keys' =>
      forallb (fun k' => negb (py_eqb k k')) keys' && distinct_keys keys'
  end.

(** Normalised values without null, sequences and timestamp-hinted keys:
    unicode strings and ASCII byte strings, integers, booleans, floats
    equal to themselves (not NaN), and dicts from string keys without
    timestamp hint to such values. *)
Fixpoint plain_normalized (val : pyval F) : bool :=
  match val with
  | PStr s => is_ascii (bytes_of s)
  | PUnicode _ | PInt _ | PBool _ => true
  | PFloat f => float_eqb f f
  | PDict items =>
      distinct_keys (map fst items)
      && forallb
           (fun '(k, v) =>
              is_string k && no_timestamp_hint k && plain_normalized v)
           items
  | _ => false
  end.

(** Numbers and text: the values [timedelta] or [float] may accept. *)
Definition is_number_or_text (val : pyval F) : bool :=
  match val with
  | PInt _ | PBool _ | PFloat _ | PStr _ | PUnicode _ => true
  | _ => false
  end.

(** The types [json] writes as the key of a dict: strings, numbers,
    booleans and null; for any other key [dumps] raises [TypeError]. *)
Definition json_key (k : pyval F) : bool :=
  match k with
  | PNone | PBool _ | PInt _ | PFloat _ | PStr _ | PUnicode _ => true
  | _ => false
  end.

(** The types [json] writes as a value: strings, numbers, booleans, null,
    lists of such values, and dicts from keys [json] writes to such
    values. *)
Fixpoint json_value (val : pyval F) : bool :=
  match val with
  | PNone | PBool _ | PInt _ | PFloat _ | PStr _ | PUnicode _ => true
  | PList l => forallb json_value l
  | PDict items => forallb (fun '(k, v) => json_key k && json_value v) items
  | _ => false
  end.


(** The segments of a non-empty [str] path. *)
Definition path_segments (path : string) : list string :=
  string_of_list_ascii
    <$> split_on (fun c => bool_decide (c = "."%char)) (list_ascii_of_string path).

(** A segment [int] accepts. *)
Definition is_index_segment (segment : string) : bool :=
  bool_decide (is_Some (int_of_bytes (bytes_of segment))).

(** A file of no bytes: its first [read] returns the empty string. *)
Definition zero_byte_file (f : list (result string)) : bool :=
  match f with
  | [] => true
  | Ok chunk :: _ => bool_decide (chunk = ""%string)
  | Raise _ :: _ => false
  end.

(** A file whose reads succeed up to the end of the file, which is the
    first read that returns the empty string. *)
Fixpoint reads_succeed (f : list (result string)) : bool :=
  match f with
  | [] => true
  | Ok chunk :: f' => bool_decide (chunk = ""%string) || reads_succeed f'
  | Raise _ :: _ => false
  end.

(** The keys of the record [_get_file_info] returns. *)
Definition file_info_keys : list string :=
  ["md5"; "sha1"; "sha2"; "file_path"; "mtime"; "ctime"]%string.

End ValueClasses.

(** ** Sample runtimes

    Concrete instances of the interfaces, used to run the model on examples:
    floats restricted to whole numbers, a fixed clock and UTC offset, a
    small [repr], and a JSON writer for string values. *)

Definition sample_repr (val : pyval Z) : string :=
  match val with
  | PNone => "None"
  | PBool true => "True"
  | PBool false => "False"
  | PInt n => if n <? 0 then "-" +:+ dec (- n) else dec n
  | PStr s => "'" +:+ s +:+ "'"
  | PList [] => "[]"
  | _ => "<object>"
  end.

Definition sample_runtime (now : datetime) (offset : Z) : Runtime Z := {|
  clock_now := now;
  utc_offset := fun _ => offset;
  float_nonzero := fun f => negb (f =? 0);
  float_of_str := fun s => int_of_bytes (bytes_of s);
  float_of_unicode := fun u => if is_ascii u then int_of_bytes u else None;
  float_timedelta := fun unit f => mk_timedelta (f * unit);
  float_int := fun f => Ok f;
  float_eqb := Z.eqb;
  float_eq_int := Z.eqb;
  unicode_lower := byte_lower;
  int_of_unicode := fun u => if is_ascii u then int_of_bytes u else None;
  py_repr := sample_repr;
|}.

Definition quoted (s : string) : string :=
  String (ascii_of_nat 34) s +:+ String (ascii_of_nat 34) "".

(** Record values are strings ([Some s]) or an object [json] cannot
    serialise ([None]), for which [dumps] raises [TypeError]. *)
Definition sample_dumps (d : gmap string (option string)) : result string :=
  items ← map_result
             (fun kv : string * option string =>
                match kv.2 with
                | Some v => Ok (quoted kv.1 +:+ ": " +:+ quoted v)
                | None => Raise TypeError
                end)
             (map_to_list d);
  Ok ("{" +:+ String.concat ", " items +:+ "}").

Definition sample_logger_runtime : LoggerRuntime (option string) := {|
  dumps := sample_dumps;
  str_value := Some;
  format_exc_info := fun message e => message +:+ " <exception> []";
  repr_extras := fun extras => default "" (match sample_dumps extras with Ok s => Some s | Raise _ => None end);
|}.

(** A file that takes every write, and one that refuses every write. *)
Definition good_file : pyfile :=
  {| written := []; write_fault := fun _ _ => None; flush_fault := fun _ => None |}.

Definition broken_file : pyfile :=
  {| written := []; write_fault := fun _ _ => Some IOError; flush_fault := fun _ => None |}.

Definition sample_state (records : list (gmap string (option string)))
    (out : pyfile) : logger_state (option string) :=
  {| heap := list_to_map (zip (Pos.of_nat <$> seq 1 (length records)) records);
     extras := ∅;
     output_file := out;
     lines_written := 0;
     stderr := good_file;
     DEBUG_MODE := false |}.

(** Digests that show what was fed to them. *)
Definition sample_hashlib : Hashlib := {|
  digest := fun a bytes =>
    match a with
    | MD5 => "md5:"
    | SHA1 => "sha1:"
    | SHA256 => "sha256:"
    end +:+ bytes;
|}.

(** A disk with the home directories of two users beside what OS X keeps
    in [/Users], and one file that is read in two chunks. *)
Definition sample_filesystem : FileSystem := {|
  os_path_isdir := fun p => bool_decide (p = "/Users"%string);
  os_path_isfile := fun p => bool_decide (p = "/Users/ivanlei/.bashrc"%string);
  os_listdir := fun p =>
    if bool_decide (p = "/Users"%string)
    then Ok [".localized"; "Shared"; ".DS_Store"; "ivanlei"; ".hidden"]%string
    else Raise IOError;
  file_mtime := fun _ => Ok (mk_datetime 2014 3 1);
  file_ctime := fun _ => Ok (mk_datetime 1899 12 31);
  open_rb := fun p =>
    if bool_decide (p = "/Users/ivanlei/.bashrc"%string)
    then Ok [Ok "export "; Ok "A=1"; Ok ""]%string
    else Raise IOError;
|}.

(** A collector whose quarantines section raises, whose startup section
    logs an error, whose chrome section is given, and whose other sections
    find nothing. *)
Definition sample_collector (chrome : prog (option string) unit)
    : Collector (V := option string) := {|
  _collect_system_info := mret ();
  _collect_kext := mret ();
  _collect_startup := log_error (LR := sample_logger_runtime) 1 "no launch agents";
  _collect_applications := mret ();
  _collect_quarantines := raise IOError;
  _collect_downloads := mret ();
  _collect_chrome := chrome;
  _collect_firefox := mret ();
  _collect_safari := mret ();
  _collect_accounts := mret ();
  _collect_mail := mret ();
|}.

(** A decorated method that fails for the shared directory and reports the
    others. *)
Definition sample_homedir_method (homedir : HomeDir)
    : prog (option string) unit :=
  if bool_decide (user_name homedir = "Shared"%string) then raise IOError
  else log_error (LR := sample_logger_runtime) 1 (path homedir).

(** * Theorems *)

(** ** The calendar *)

Example ord_of_epoch : _ymd2ord 1970 1 1 = 719163.
Proof. reflexivity. Qed.

Example ymd_of_ord : _ord2ymd 735366 = (2014, 5, 13).
Proof. reflexivity. Qed.

Example ymd_leap_day : _ord2ymd (_ymd2ord 2004 2 29) = (2004, 2, 29).
Proof. reflexivity. Qed.

Example ymd_year_end : _ord2ymd (_ymd2ord 2004 12 31) = (2004, 12, 31).
Proof. reflexivity. Qed.

(** A datetime before 2004-01-01 has a year below [MIN_YEAR]. *)
Lemma year_before_MIN_YEAR (dt : datetime) :
  dt < mk_datetime MIN_YEAR 1 1 -> dt_year dt < MIN_YEAR.
Proof.
  change (mk_datetime MIN_YEAR 1 1) with 63208512000000000.
  unfold dt_year, toordinal, _ord2ymd, MIN_YEAR, US_PER_DAY, _DI400Y, _DI100Y, _DI4Y.
  cbv zeta. intros H.
  repeat match goal with
  | |- context [if ?b then _ else _] => destruct b eqn:?
  end; cbn [fst snd]; Z.div_mod_to_equations; lia.
Qed.

(** ** Timestamp inference *)

Section TimestampFacts.
Context {F : Type} `{RT : Runtime F}.

Lemma tomorrow_Ok (t : datetime) : tomorrow = Ok t -> t = clock_now + US_PER_DAY.
Proof.
  unfold tomorrow.
  change (mk_timedelta US_PER_DAY) with (Ok US_PER_DAY : result timedelta).
  cbn [mbind result_bind]. unfold datetime_add.
  destruct (in_datetime_range (clock_now + US_PER_DAY)); congruence.
Qed.

Lemma errorhandling_Some {A} (func : A -> result datetime) (a : A) (dt : datetime) :
  _timestamp_errorhandling func a = Some dt ->
  func a = Ok dt /\ MIN_YEAR <= dt_year dt /\ dt <= clock_now + US_PER_DAY.
Proof.
  unfold _timestamp_errorhandling.
  destruct (func a) as [dt'|]; [|discriminate].
  destruct tomorrow as [t|] eqn:Ht; [|discriminate].
  apply tomorrow_Ok in Ht. subst t.
  destruct (_ || _) eqn:Hc; [discriminate|].
  intros [= ->]. apply orb_false_elim in Hc as [Hy Hd].
  split; [reflexivity|]. lia.
Qed.

Lemma errorhandling_rejects {A} (func : A -> result datetime) (a : A) (dt : datetime) :
  func a = Ok dt ->
  dt_year dt < MIN_YEAR \/ clock_now + US_PER_DAY < dt ->
  _timestamp_errorhandling func a = None.
Proof.
  intros Hf Hbad. unfold _timestamp_errorhandling. rewrite Hf.
  destruct tomorrow as [t|] eqn:Ht; [|reflexivity].
  apply tomorrow_Ok in Ht. subst t.
  destruct (_ || _) eqn:Hc; [reflexivity|].
  apply orb_false_elim in Hc as [Hy Hd]. lia.
Qed.

Lemma py_or_Some (a b : option datetime) (dt : datetime) :
  py_or a b = Some dt <-> a = Some dt \/ (a = None /\ b = Some dt).
Proof. destruct a; cbn; split; intros; intuition congruence. Qed.

Lemma value_to_datetime_window (val : pyval F) (dt : datetime) :
  _value_to_datetime val = Some dt ->
  MIN_YEAR <= dt_year dt /\ dt <= clock_now + US_PER_DAY.
Proof.
  unfold _value_to_datetime.
  destruct (float_if_basestring val) as [v|]; [|discriminate].
  rewrite !py_or_Some.
  intros [H|[_ [H|[_ [H|[_ H]]]]]]; apply errorhandling_Some in H; apply H.
Qed.

(** C5: under each of the four interpretations, a date computed by the
    conversion whose year is below 2004, or which lies more than one day
    after the current time, is rejected: the candidate yields [None].  So
    every date a candidate accepts, and every date [_value_to_datetime]
    returns, has a year of at least 2004 and is at most one day after
    now. *)
Theorem C5_validity_bound :
  (forall (A : Type) (func : A -> result datetime) (a : A) (dt : datetime),
      _convert_to_local func a = Ok dt ->
      dt_year dt < MIN_YEAR \/ clock_now + US_PER_DAY < dt ->
      _timestamp_errorhandling (_convert_to_local func) a = None) /\
  (forall (candidate : pyval F -> option datetime) (val : pyval F) (dt : datetime),
      In candidate [_microseconds_since_epoch_to_datetime;
                    _microseconds_since_1601_to_datetime;
                    _seconds_since_epoch_to_datetime;
                    _seconds_since_2001_to_datetime] ->
      candidate val = Some dt ->
      MIN_YEAR <= dt_year dt /\ dt <= clock_now + US_PER_DAY) /\
  (forall (val : pyval F) (dt : datetime),
      _value_to_datetime val = Some dt ->
      MIN_YEAR <= dt_year dt /\ dt <= clock_now + US_PER_DAY).
Proof.
  split; [|split].
  - intros A func a dt Hf Hbad. eapply errorhandling_rejects; eauto.
  - intros candidate val dt Hin Hc.
    cbn in Hin.
    destruct Hin as [<-|[<-|[<-|[<-|[]]]]];
      apply errorhandling_Some in Hc; apply Hc.
  - apply value_to_datetime_window.
Qed.

End TimestampFacts.

Ltac calendar_constants :=
  let c1970 := eval vm_compute in DATETIME_1970 in
  let c1601 := eval vm_compute in DATETIME_1601 in
  let c2001 := eval vm_compute in DATETIME_2001 in
  let cmin := eval vm_compute in datetime_min in
  let cmax := eval vm_compute in datetime_max in
  let c2004 := eval vm_compute in (mk_datetime MIN_YEAR 1 1) in
  change DATETIME_1970 with c1970 in *;
  change DATETIME_1601 with c1601 in *;
  change DATETIME_2001 with c2001 in *;
  change datetime_min with cmin in *;
  change datetime_max with cmax in *;
  change (mk_datetime MIN_YEAR 1 1) with c2004 in *;
  unfold US_PER_SECOND, US_PER_DAY in *.

Section TimestampPriority.
Context {F : Type} `{RT : Runtime F}.

(** Local time is within a day of UTC (real offsets lie between -12 and
    +14 hours). *)
Hypothesis utc_offset_bound : forall t, -86400 <= utc_offset t <= 86400.

Lemma errorhandling_None_early {A} (func : A -> result datetime) (a : A) :
  (forall dt, func a = Ok dt -> dt < mk_datetime MIN_YEAR 1 1) ->
  _timestamp_errorhandling func a = None.
Proof.
  intros H. destruct (func a) as [dt|e] eqn:Hf.
  - eapply errorhandling_rejects; [exact Hf|].
    left. apply year_before_MIN_YEAR. auto.
  - unfold _timestamp_errorhandling. rewrite Hf. reflexivity.
Qed.

(** The local date an integer is converted to, from a base date and a unit
    in microseconds. *)
Lemma convert_to_local_int (base unit n : Z) (dt : datetime) :
  _convert_to_local
    (fun v => td ← timedelta_of unit v; datetime_add base td) (PInt n) = Ok dt ->
  in_datetime_range (base + n * unit) = true /\
  dt = DATETIME_1970
       + (timegm_timetuple (base + n * unit)
          + utc_offset (timegm_timetuple (base + n * unit))) * US_PER_SECOND.
Proof.
  unfold _convert_to_local, timedelta_of, mk_timedelta, datetime_add, fromtimestamp.
  destruct (_ && _); cbn [mbind result_bind]; [|discriminate].
  destruct (in_datetime_range (base + n * unit)); cbn [mbind result_bind]; [|discriminate].
  destruct (in_datetime_range _); [|discriminate].
  intros [= <-]. split; reflexivity.
Qed.

Lemma in_datetime_range_bounds (t : Z) :
  in_datetime_range t = true -> datetime_min <= t <= datetime_max.
Proof. unfold in_datetime_range. intros H%andb_prop. lia. Qed.

(** An integer accepted as seconds since 1970 is rejected as microseconds
    since 1970 and as microseconds since 1601: read as microseconds it is
    less than three days. *)
Lemma seconds_since_epoch_excludes_microseconds (n : Z) (dt : datetime) :
  _seconds_since_epoch_to_datetime (PInt n) = Some dt ->
  _microseconds_since_epoch_to_datetime (PInt n) = None /\
  _microseconds_since_1601_to_datetime (PInt n) = None.
Proof.
  intros H. apply errorhandling_Some in H as (Hc & Hy & _).
  apply convert_to_local_int in Hc as [Hr ->].
  apply in_datetime_range_bounds in Hr.
  assert (Hn : n <= 253402300799).
  { calendar_constants. lia. }
  clear Hy Hr.
  split; apply errorhandling_None_early; intros dt' Hc';
    apply convert_to_local_int in Hc' as [_ ->];
    match goal with
    | |- context [utc_offset ?t] => pose proof (utc_offset_bound t)
    end;
    unfold timegm_timetuple in *; calendar_constants;
    Z.div_mod_to_equations; lia.
Qed.

(** C4: [_value_to_datetime] tries microseconds since 1970, microseconds
    since 1601, seconds since 1970 and seconds since 2001 in this order and
    returns the first date a candidate accepts; non-numeric text and a
    value no candidate accepts give [None]; an integer accepted both as
    seconds since 1970 and as seconds since 2001 is read as seconds since
    1970. *)
Theorem C4_priority_order :
  (forall (val v : pyval F) (dt : datetime),
      float_if_basestring val = Some v ->
      _value_to_datetime val = Some dt <->
      _microseconds_since_epoch_to_datetime v = Some dt \/
      (_microseconds_since_epoch_to_datetime v = None /\
       (_microseconds_since_1601_to_datetime v = Some dt \/
        (_microseconds_since_1601_to_datetime v = None /\
         (_seconds_since_epoch_to_datetime v = Some dt \/
          (_seconds_since_epoch_to_datetime v = None /\
           _seconds_since_2001_to_datetime v = Some dt)))))) /\
  (forall val : pyval F,
      float_if_basestring val = None -> _value_to_datetime val = None) /\
  (forall val v : pyval F,
      float_if_basestring val = Some v ->
      _microseconds_since_epoch_to_datetime v = None ->
      _microseconds_since_1601_to_datetime v = None ->
      _seconds_since_epoch_to_datetime v = None ->
      _seconds_since_2001_to_datetime v = None ->
      _value_to_datetime val = None) /\
  (forall (n : Z) (d1970 d2001 : datetime),
      _seconds_since_epoch_to_datetime (PInt n) = Some d1970 ->
      _seconds_since_2001_to_datetime (PInt n) = Some d2001 ->
      _value_to_datetime (PInt n) = Some d1970).
Proof.
  repeat split.
  - unfold _value_to_datetime. rewrite H. rewrite !py_or_Some. tauto.
  - unfold _value_to_datetime. rewrite H. rewrite !py_or_Some. tauto.
  - intros val H. unfold _value_to_datetime. rewrite H. reflexivity.
  - intros val v H H1 H2 H3 H4. unfold _value_to_datetime.
    rewrite H, H1, H2, H3, H4. reflexivity.
  - intros n d1970 d2001 H3 _.
    destruct (seconds_since_epoch_excludes_microseconds n d1970 H3) as [H1 H2].
    unfold _value_to_datetime. cbn [float_if_basestring].
    rewrite H1, H2, H3. reflexivity.
Qed.

End TimestampPriority.

(** 1072915200 is 2004-01-01 as seconds since 1970 and 2035-01-01 as seconds
    since 2001; with the clock in 2040 both are accepted. *)
Lemma C4_priority_order_witness :
  _value_to_datetime (RT := sample_runtime (mk_datetime 2040 1 1) 0)
    (PInt 1072915200) = Some (mk_datetime 2004 1 1).
Proof.
  refine (proj2 (proj2 (proj2
    (C4_priority_order (RT := sample_runtime (mk_datetime 2040 1 1) 0) _)))
    1072915200 (mk_datetime 2004 1 1) (mk_datetime 2035 1 1) _ _).
  - intros t. cbn. lia.
  - vm_compute. reflexivity.
  - vm_compute. reflexivity.
Defined.

Lemma C5_validity_bound_witness :
  MIN_YEAR <= dt_year (mk_datetime 2014 5 13)
  /\ mk_datetime 2014 5 13
     <= clock_now (Runtime := sample_runtime (mk_datetime 2020 1 1) 0) + US_PER_DAY.
Proof.
  refine (proj2 (proj2 (C5_validity_bound
    (RT := sample_runtime (mk_datetime 2020 1 1) 0)))
    (PInt 1399939200) (mk_datetime 2014 5 13) _).
  vm_compute. reflexivity.
Defined.

(** ** Value normalisation *)

Lemma map_result_Raise {A B} (f : A -> result B) (l : list A) (e : exc) :
  map_result f l = Raise e -> exists a, a ∈ l /\ f a = Raise e.
Proof.
  induction l as [|a l IH]; cbn; [discriminate|].
  destruct (f a) as [b|e'] eqn:Hf; cbn.
  - destruct (map_result f l) as [bs|e'']; cbn; [discriminate|].
    intros [= ->]. destruct IH as (a' & Hin & Ha'); [reflexivity|].
    eauto using list_elem_of_further.
  - intros [= ->]. eauto using list_elem_of_here.
Qed.

Lemma map_result_Ok {A B} (f : A -> result B) (l : list A) (l' : list B) :
  map_result f l = Ok l' <-> Forall2 (fun a b => f a = Ok b) l l'.
Proof.
  revert l'. induction l as [|a l IH]; intros l'; cbn.
  - split; [intros [= <-]; constructor | intros H; inversion H; reflexivity].
  - destruct (f a) as [b|e] eqn:Hf; cbn.
    + destruct (map_result f l) as [bs|e]; cbn.
      * split.
        -- intros [= <-]. constructor; [exact Hf | apply IH; reflexivity].
        -- intros H. inversion H as [|? b' ? bs' Hb Hbs]; subst.
           apply IH in Hbs. congruence.
      * split; [discriminate|].
        intros H. inversion H as [|? b' ? bs' Hb Hbs]; subst.
        apply IH in Hbs. discriminate.
    + split; [discriminate|].
      intros H. inversion H; subst. congruence.
Qed.

Lemma list_all_Forall {A} (P : A -> Prop) (l : list A) :
  list_all A P l -> Forall P l.
Proof. induction 1; constructor; assumption. Qed.

Lemma list_all_prod_Forall {A B} (P : A -> Prop) (Q : B -> Prop)
    (items : list (A * B)) :
  list_all (A * B) (prod_all A P B Q) items ->
  Forall (fun kv => P (fst kv) /\ Q (snd kv)) items.
Proof.
  induction 1 as [|kv H l _ IH]; constructor; [|assumption].
  destruct H. split; assumption.
Qed.

Section NormalizeFacts.
Context {F : Type} `{RT : Runtime F}.

Lemma _normalize_val_eq (val key : pyval F) :
  _normalize_val val key =
  (hinted ← key_hints_timestamp key;
   match (if hinted : bool then _value_to_datetime val else None) with
   | Some ts => Ok (_datetime_to_string ts)
   | None =>
       try_except (normalize_dispatch _normalize_val val)
         is_Exception (fun _ => Ok (PStr (py_repr val)))
   end).
Proof. destruct val; reflexivity. Qed.

Lemma key_hints_timestamp_Raise (key : pyval F) (e : exc) :
  key_hints_timestamp key = Raise e -> e = AttributeError.
Proof.
  unfold key_hints_timestamp. destruct (py_bool key); [|discriminate].
  destruct key; cbn; intros H; first [discriminate H | congruence].
Qed.

Lemma key_hints_timestamp_string (key : pyval F) :
  hint_is_string_or_false key = true ->
  exists hinted, key_hints_timestamp key = Ok hinted.
Proof.
  unfold hint_is_string_or_false, key_hints_timestamp.
  destruct (py_bool key) eqn:Hb; [|eauto].
  rewrite orb_false_r. destruct key; cbn; try discriminate; eauto.
Qed.

(** The only exception that leaves [_normalize_val] is the one of the hint
    test, which stands before the [try]. *)
Lemma _normalize_val_Raise (val : pyval F) :
  forall key e,
    _normalize_val val key = Raise e -> key_hints_timestamp key = Raise e.
Proof.
  induction val using pyval_ind; intros key e;
    rewrite _normalize_val_eq;
    (destruct (key_hints_timestamp key) as [hinted|e'];
     cbn [mbind result_bind]; [|intros [= ->]; reflexivity]);
    (destruct (if hinted then _ else _); [discriminate|]);
    unfold try_except;
    match goal with
    | |- context [normalize_dispatch _ ?v] =>
        destruct (normalize_dispatch _normalize_val v) as [?|e0] eqn:Hd
    end; try discriminate;
    (destruct (is_Exception e0) eqn:He0; [discriminate|]);
    exfalso; cbn [normalize_dispatch] in Hd; unfold try_except in Hd.
  all: try (destruct (negb _); discriminate).
  all: try discriminate.
  - (* str *)
    unfold ascii_decode, unicode_decode in Hd.
    repeat (destruct (is_ascii _) in Hd; cbn in Hd); try discriminate;
      injection Hd as <-; discriminate.
  - (* unicode *)
    unfold unicode_decode in Hd.
    destruct (is_ascii _) in Hd; cbn in Hd; discriminate.
  - (* buffer *)
    destruct (ascii_decode b ≫= _); discriminate.
  - (* dict *)
    destruct (map_result _ items) as [?|e1] eqn:Hm; cbn in Hd; [discriminate|].
    injection Hd as ->.
    apply map_result_Raise in Hm as ([k v] & Hin & Hkv).
    apply list_all_prod_Forall in X. rewrite Forall_forall in X.
    apply X in Hin. destruct Hin as [_ IHv]. cbn [snd] in IHv.
    destruct (_normalize_val v k) eqn:Hn; cbn in Hkv; [discriminate|].
    injection Hkv as ->.
    apply IHv, key_hints_timestamp_Raise in Hn. subst. discriminate.
  - (* NSArray *)
    destruct (map_result _ l) as [?|e1] eqn:Hm; cbn in Hd; [discriminate|].
    injection Hd as ->.
    apply map_result_Raise in Hm as (x & Hin & Hx).
    apply list_all_Forall in X. rewrite Forall_forall in X.
    pose proof (X _ Hin) as IHx. cbn beta in Hx. apply IHx in Hx. discriminate.
  - (* NSDictionary *)
    destruct (map_result _ items) as [?|e1] eqn:Hm; cbn in Hd; [discriminate|].
    injection Hd as ->.
    apply map_result_Raise in Hm as ([k v] & Hin & Hkv).
    apply list_all_prod_Forall in X. rewrite Forall_forall in X.
    apply X in Hin. destruct Hin as [_ IHv]. cbn [snd] in IHv.
    destruct (_normalize_val v k) eqn:Hn; cbn in Hkv; [discriminate|].
    injection Hkv as ->.
    apply IHv, key_hints_timestamp_Raise in Hn. subst. discriminate.
Qed.

End NormalizeFacts.

Section NormalizeTotal.
Context {F : Type} `{RT : Runtime F}.

(** C2, amended: for every value and every hint that is a string or false
    (no hint), [_normalize_val] returns a value and raises nothing; so it
    does on values outside the dispatch table such as Python lists.  When
    the dispatch inside the [try] fails, the result is [repr] of the
    input. *)
Theorem C2_normalize_never_raises (val key : pyval F) :
  hint_is_string_or_false key = true ->
  (exists v, _normalize_val val key = Ok v) /\
  (forall e,
      (forall hinted ts, key_hints_timestamp key = Ok hinted ->
         (if hinted : bool then _value_to_datetime val else None) <> Some ts) ->
      normalize_dispatch _normalize_val val = Raise e ->
      _normalize_val val key = Ok (PStr (py_repr val))).
Proof.
  intros Hkey. split.
  - destruct (_normalize_val val key) as [v|e] eqn:Hn; [eauto|].
    apply _normalize_val_Raise in Hn.
    apply key_hints_timestamp_string in Hkey as [hinted Hh]. congruence.
  - intros e Hts Hd.
    apply key_hints_timestamp_string in Hkey as [hinted Hh].
    rewrite _normalize_val_eq, Hh. cbn [mbind result_bind].
    specialize (Hts hinted).
    destruct (if hinted then _ else _) as [ts|]; [exfalso; eapply Hts; eauto|].
    unfold try_except. rewrite Hd.
    destruct (is_Exception e) eqn:He; [reflexivity|].
    exfalso.
    assert (Hn : _normalize_val val PNone = Raise e).
    { rewrite _normalize_val_eq. cbn. unfold try_except. rewrite Hd, He. reflexivity. }
    apply _normalize_val_Raise in Hn. discriminate.
Qed.

End NormalizeTotal.

(** A plain Python list under a timestamp hint: no exception. *)
Lemma C2_normalize_never_raises_witness :
  exists v,
    _normalize_val (RT := sample_runtime (mk_datetime 2020 1 1) 0)
      (PList [PInt 1; PInt 2]) (PStr "lastAccessedTime") = Ok v.
Proof.
  refine (proj1 (C2_normalize_never_raises
    (RT := sample_runtime (mk_datetime 2020 1 1) 0)
    (PList [PInt 1; PInt 2]) (PStr "lastAccessedTime") _)).
  reflexivity.
Defined.

(** With a hint that is true and not a string, [key.lower()] raises
    [AttributeError] before the [try] is entered. *)
Lemma C2_non_string_hint_raises :
  _normalize_val (RT := sample_runtime (mk_datetime 2020 1 1) 0)
    (PStr "value") (PInt 5) = Raise AttributeError.
Proof. reflexivity. Qed.

Example normalize_hinted_column :
  _normalize_val (RT := sample_runtime (mk_datetime 2020 1 1) 0)
    (PInt 1400000000) (PStr "last_visit_time") = Ok (PStr "2014-05-13 16:53:20").
Proof. vm_compute. reflexivity. Qed.

Example normalize_bad_bytes :
  _normalize_val (RT := sample_runtime (mk_datetime 2020 1 1) 0)
    (PStr (String (ascii_of_nat 233) "")) PNone
  = Ok (PStr ("'" +:+ String (ascii_of_nat 233) "'")).
Proof. vm_compute. reflexivity. Qed.

Example normalize_int_keyed_dict :
  _normalize_val (RT := sample_runtime (mk_datetime 2020 1 1) 0)
    (PDict [(PInt 5, PStr "five")]) PNone = Ok (PStr "<object>").
Proof. vm_compute. reflexivity. Qed.

Section NormalizeIdempotent.
Context {F : Type} `{RT : Runtime F}.

Lemma py_eqb_string_refl (k : pyval F) :
  is_string k = true -> py_eqb k k = true.
Proof. destruct k; try discriminate; intros _; cbn; apply bool_decide_eq_true; reflexivity. Qed.

Lemma py_eqb_string_sym (a b : pyval F) :
  is_string a = true -> is_string b = true -> py_eqb a b = py_eqb b a.
Proof.
  destruct a, b; try discriminate; intros _ _; cbn; try reflexivity;
    apply bool_decide_ext; split; congruence.
Qed.

(** In a dict, looking a key up finds the value stored with it. *)
Lemma assoc_find_distinct (items : list (pyval F * pyval F)) (k v : pyval F) :
  distinct_keys (map fst items) = true ->
  Forall (fun kv => is_string (fst kv) = true) items ->
  (k, v) ∈ items ->
  assoc_find (py_eqb k) items = Some v.
Proof.
  induction items as [|[k0 v0] items IH]; intros Hd Hs Hin.
  - inversion Hin.
  - cbn in Hd. apply andb_prop in Hd as [Hk0 Hd].
    inversion Hs as [|? ? Hs0 Hs']; subst. cbn in Hs0.
    cbn [assoc_find].
    apply elem_of_cons in Hin as [[= -> ->]|Hin].
    + rewrite py_eqb_string_refl by assumption. reflexivity.
    + assert (Hk : is_string k = true).
      { rewrite Forall_forall in Hs'. apply (Hs' _ Hin). }
      rewrite py_eqb_string_sym by assumption.
      rewrite forallb_forall in Hk0.
      assert (Hne : negb (py_eqb k0 k) = true).
      { apply Hk0. apply in_map_iff. exists (k, v). split; [reflexivity|].
        apply list_elem_of_In. assumption. }
      apply negb_true_iff in Hne. rewrite Hne.
      apply IH; assumption.
Qed.

Lemma plain_normalized_fixed (val : pyval F) :
  forall key,
    no_timestamp_hint key = true ->
    plain_normalized val = true ->
    exists v, _normalize_val val key = Ok v /\ py_eqb v val = true.
Proof.
  induction val using pyval_ind; intros key Hkey Hplain;
    try discriminate Hplain;
    rewrite _normalize_val_eq;
    unfold no_timestamp_hint in Hkey;
    (destruct (key_hints_timestamp key) as [[|]|]; try discriminate Hkey);
    cbn [mbind result_bind normalize_dispatch try_except].
  - (* bool *) eexists; split; [reflexivity|]. cbn. apply bool_decide_eq_true. reflexivity.
  - (* int *) eexists; split; [reflexivity|]. cbn. apply bool_decide_eq_true. reflexivity.
  - (* float *) eexists; split; [reflexivity|]. exact Hplain.
  - (* str *)
    cbn in Hplain. unfold ascii_decode, unicode_decode, utf_8_ignore.
    rewrite Hplain. cbn. rewrite Hplain. cbn.
    eexists; split; [reflexivity|]. cbn. rewrite Hplain.
    apply bool_decide_eq_true. reflexivity.
  - (* unicode *)
    unfold unicode_decode, utf_8_ignore.
    destruct (is_ascii u); cbn;
      (eexists; split; [reflexivity|]); cbn; apply bool_decide_eq_true; reflexivity.
  - (* dict *)
    cbn [plain_normalized] in Hplain. apply andb_prop in Hplain as [Hdist Hall].
    apply list_all_prod_Forall in X.
    assert (Hitems : exists items',
               map_result
                 (fun '(k, v) => v' ← _normalize_val v k; Ok (k, v')) items
               = Ok items' /\
               Forall2 (fun kv kv' => fst kv' = fst kv
                                      /\ py_eqb (snd kv') (snd kv) = true)
                 items items').
    { clear Hdist. induction items as [|[k v] items IHitems].
      - exists []. split; [reflexivity|constructor].
      - cbn in Hall. apply andb_prop in Hall as [Hkv Hall].
        apply andb_prop in Hkv as [Hkv Hv]. apply andb_prop in Hkv as [Hk Hh].
        inversion X as [|? ? [_ IHv] X']; subst. cbn [snd] in IHv.
        destruct (IHv k Hh Hv) as (v' & Hn & He).
        destruct (IHitems X' Hall) as (items' & Hm & Hf).
        exists ((k, v') :: items'). split.
        + cbn. rewrite Hn. cbn. rewrite Hm. reflexivity.
        + constructor; [split; [reflexivity | exact He] | exact Hf]. }
    destruct Hitems as (items' & Hm & Hf).
    rewrite Hm. cbn.
    eexists; split; [reflexivity|].
    cbn [py_eqb].
    assert (Hstr : Forall (fun kv => is_string (fst kv) = true) items).
    { rewrite forallb_forall in Hall. apply Forall_forall. intros [k v] Hin.
      apply list_elem_of_In, Hall in Hin.
      apply andb_prop in Hin as [Hin _]. apply andb_prop in Hin as [Hin _].
      exact Hin. }
    apply andb_true_intro. split.
    + apply bool_decide_eq_true. symmetry. eapply Forall2_length. exact Hf.
    + apply forallb_forall. intros [k v'] Hin.
      apply list_elem_of_In, list_elem_of_lookup in Hin as [i Hi].
      destruct (Forall2_lookup_r _ _ _ _ _ Hf Hi) as ([k0 v] & Hi0 & Hk & He).
      assert (Hin0 : (k0, v) ∈ items) by (apply list_elem_of_lookup; eauto).
      cbn in Hk, He. subst k0.
      rewrite (assoc_find_distinct items k v Hdist Hstr Hin0). exact He.
Qed.

(** C6, amended: on unicode strings, ASCII byte strings, integers,
    booleans, floats other than NaN, and dicts from string keys without
    timestamp hint to such values, [_normalize_val] without hint returns a
    value equal ([==]) to its argument. *)
Theorem C6_idempotent_on_plain_values (val : pyval F) :
  plain_normalized val = true ->
  exists v, _normalize_val val PNone = Ok v /\ py_eqb v val = true.
Proof. apply plain_normalized_fixed. reflexivity. Qed.

End NormalizeIdempotent.

Lemma C6_idempotent_on_plain_values_witness :
  exists v,
    _normalize_val (RT := sample_runtime (mk_datetime 2020 1 1) 0)
      (PDict [(PStr "name", PStr "Safari"); (PStr "visits", PInt 3)]) PNone = Ok v
    /\ py_eqb (RT := sample_runtime (mk_datetime 2020 1 1) 0) v
         (PDict [(PStr "name", PStr "Safari"); (PStr "visits", PInt 3)]) = true.
Proof.
  refine (C6_idempotent_on_plain_values
    (RT := sample_runtime (mk_datetime 2020 1 1) 0)
    (PDict [(PStr "name", PStr "Safari"); (PStr "visits", PInt 3)]) _).
  vm_compute. reflexivity.
Defined.

(** Normalised values the normaliser changes: null becomes the empty string,
    a number under a timestamp-hinted key of a mapping becomes a date string,
    and a Python list becomes its [repr]. *)
Lemma C6_not_idempotent :
  let RT := sample_runtime (mk_datetime 2020 1 1) 0 in
  (_normalize_val PNone PNone = Ok (PStr "")
   /\ py_eqb (PStr "") PNone = false)
  /\ (_normalize_val (PDict [(PStr "date", PInt 1400000000)]) PNone
      = Ok (PDict [(PStr "date", PStr "2014-05-13 16:53:20")])
      /\ py_eqb (PDict [(PStr "date", PStr "2014-05-13 16:53:20")])
           (PDict [(PStr "date", PInt 1400000000)]) = false)
  /\ (_normalize_val (PList [PInt 1; PInt 2]) PNone = Ok (PStr "<object>")
      /\ py_eqb (PStr "<object>") (PList [PInt 1; PInt 2]) = false).
Proof. vm_compute. repeat split. Qed.

(** ** DictUtils *)

Section DictUtilsFacts.
Context {F : Type} `{RT : Runtime F}.

Example get_deep_index :
  get_deep (PDict [(PStr "a", PDict [(PStr "b", PList [PInt 10; PInt 20; PInt 30])])])
    (PStr "a.b.1") PNone = Ok (PInt 20).
Proof. reflexivity. Qed.

Example get_deep_empty_path :
  get_deep (PDict []) (PStr "") PNone = Ok PNone.
Proof. reflexivity. Qed.

Example get_deep_not_a_container :
  get_deep (PDict [(PStr "a", PInt 1)]) (PStr "a.b") PNone = Ok PNone.
Proof. reflexivity. Qed.

Example get_deep_negative_index :
  get_deep (PDict [(PStr "a", PList [PInt 10; PInt 20; PInt 30])])
    (PStr "a.-1") PNone = Ok (PInt 30).
Proof. reflexivity. Qed.

(** C3: a segment that parses as an integer but is out of range as a
    sequence index makes [get_deep] raise [IndexError], which neither
    [except] clause names, where the claim (and the docstring: the default
    is returned "if the path can not be found") wants the default. *)
Theorem C3_get_deep_index_out_of_range :
  get_deep (PDict [(PStr "a", PList [PInt 10; PInt 20; PInt 30])])
    (PStr "a.5") PNone = Raise IndexError.
Proof. reflexivity. Qed.

Lemma getitem_Raise (x link : pyval F) (e : exc) :
  getitem x link = Raise e -> e = KeyError \/ e = TypeError \/ e = IndexError.
Proof.
  unfold getitem, seq_index.
  destruct x; cbn; try (intros [= <-]; tauto);
    repeat match goal with
    | |- context [match ?c with _ => _ end] => destruct c; cbn
    end; try discriminate; intros [= <-]; tauto.
Qed.

Lemma follow_link_str_Raise (x : pyval F) (s : string) (e : exc) :
  follow_link x (PStr s) = Raise e ->
  e = KeyError \/ e = TypeError \/ e = ValueError \/ e = IndexError.
Proof.
  unfold follow_link, try_except.
  destruct (getitem x (PStr s)) as [v|e0] eqn:Hg; [discriminate|].
  destruct (catches _ e0).
  - cbn. destruct (int_of_bytes _); cbn.
    + intros H%getitem_Raise. tauto.
    + intros [= <-]. tauto.
  - intros [= <-]. apply getitem_Raise in Hg. tauto.
Qed.

Lemma follow_chain_str_Raise (links : list string) :
  forall (x : pyval F) (e : exc),
    follow_chain x (PStr <$> links) = Raise e ->
    e = KeyError \/ e = TypeError \/ e = ValueError \/ e = IndexError.
Proof.
  induction links as [|s links IH]; intros x e; cbn; [discriminate|].
  destruct (follow_link x (PStr s)) as [x'|e0] eqn:Hl; cbn.
  - apply IH.
  - intros [= <-]. eapply follow_link_str_Raise; eauto.
Qed.

(** X8: with a [str] path, [IndexError] is the only exception that leaves
    [get_deep]. *)
Lemma get_deep_str_path (x default : pyval F) (path : string) :
  (exists v, get_deep x (PStr path) default = Ok v)
  \/ get_deep x (PStr path) default = Raise IndexError.
Proof.
  unfold get_deep, _link_path_to_chain.
  destruct path as [|c path]; cbn [mbind result_bind]; [left; eexists; reflexivity|].
  set (pieces := split_on _ _).
  change (fun piece => PStr (string_of_list_ascii piece))
    with (@PStr F ∘ string_of_list_ascii).
  rewrite (list_fmap_compose string_of_list_ascii (@PStr F)).
  generalize (string_of_list_ascii <$> pieces). intros links.
  unfold _get_deep_by_chain.
  destruct (PStr <$> links) as [|l ls] eqn:Hlinks; [left; eexists; reflexivity|].
  rewrite <- Hlinks. clear Hlinks. unfold try_except. cbn [py_iter mbind result_bind].
  destruct (follow_chain x (PStr <$> links)) as [v|e] eqn:Hf; [left; eauto|].
  apply follow_chain_str_Raise in Hf as [-> | [-> | [-> | ->]]]; cbn; eauto.
Qed.

End DictUtilsFacts.

(** ** File hashing *)

Lemma string_app_nil_r (s : string) : s +:+ "" = s.
Proof.
  induction s as [|a s IH]; [reflexivity|].
  change (String a (s +:+ "") = String a s). f_equal. exact IH.
Qed.

Lemma string_app_assoc (s t u : string) : s +:+ t +:+ u = (s +:+ t) +:+ u.
Proof.
  induction s as [|a s IH]; [reflexivity|].
  change (String a (s +:+ t +:+ u) = String a ((s +:+ t) +:+ u)).
  f_equal. exact IH.
Qed.

Section HashFileFacts.
Context `{HL : Hashlib}.

Lemma hash_chunks_length (f : open_file) :
  forall hashers hs,
    hash_chunks f hashers = Ok hs -> length hs = length hashers.
Proof.
  induction f as [|[chunk|e] f IH]; intros hashers hs; cbn.
  - intros [= <-]. reflexivity.
  - destruct (bool_decide _); [intros [= <-]; reflexivity|].
    intros H%IH. rewrite H, length_map. reflexivity.
  - discriminate.
Qed.

(** Chunk by chunk, every hasher is fed the bytes of the file. *)
Lemma hash_chunks_fed (f : open_file) :
  forall hashers hs,
    hash_chunks f hashers = Ok hs ->
    hs = map (fun h => hash_update h (file_content f)) hashers.
Proof.
  assert (Hnil : forall hashers : list hasher,
             hashers = map (fun h => hash_update h "") hashers).
  { intros hashers. induction hashers as [|[a b] hashers IH]; cbn; [reflexivity|].
    unfold hash_update at 1. cbn [alg fed]. rewrite string_app_nil_r, <- IH.
    reflexivity. }
  induction f as [|[chunk|e] f IH]; intros hashers hs; cbn.
  - intros [= <-]. apply Hnil.
  - destruct (bool_decide _); [intros [= <-]; apply Hnil|].
    intros H%IH. rewrite H, map_map. apply map_ext.
    intros [a b]. unfold hash_update. cbn [alg fed]. rewrite string_app_assoc.
    reflexivity.
  - discriminate.
Qed.

(** The loop ends well exactly when every read up to the end of the file
    does. *)
Lemma hash_chunks_reads (f : open_file) :
  forall hashers,
    if reads_succeed f then exists hs, hash_chunks f hashers = Ok hs
    else exists e, hash_chunks f hashers = Raise e.
Proof.
  induction f as [|[chunk|e] f IH]; intros hashers; cbn.
  - eexists; reflexivity.
  - destruct (bool_decide (chunk = ""%string)); cbn; [eexists; reflexivity|].
    apply IH.
  - eexists; reflexivity.
Qed.

(** C9: for a file of no bytes [_hash_file] returns the md5, sha1 and
    sha256 digests of the empty byte string; when [open] or a [read]
    raises, it returns three empty strings; it never raises. *)
Theorem C9_hash_file (open_rb : string -> result open_file) (file_path : string) :
  (forall f, open_rb file_path = Ok f -> zero_byte_file f = true ->
     _hash_file open_rb file_path
     = Ok [digest MD5 ""; digest SHA1 ""; digest SHA256 ""]%string) /\
  (forall e, open_rb file_path = Raise e ->
     _hash_file open_rb file_path = Ok [""; ""; ""]%string) /\
  (forall f, open_rb file_path = Ok f -> reads_succeed f = false ->
     _hash_file open_rb file_path = Ok [""; ""; ""]%string) /\
  (exists digests, _hash_file open_rb file_path = Ok digests
                   /\ length digests = 3%nat).
Proof.
  unfold _hash_file, try_except.
  repeat split.
  - intros f -> Hz. cbn [mbind result_bind].
    destruct f as [|[chunk|e] f]; try discriminate Hz; cbn in *.
    + reflexivity.
    + rewrite Hz. reflexivity.
  - intros e ->. reflexivity.
  - intros f -> Hr. cbn [mbind result_bind].
    pose proof (hash_chunks_reads f [md5; sha1; sha256]) as Hh.
    rewrite Hr in Hh. destruct Hh as [e Hh]. rewrite Hh. reflexivity.
  - destruct (open_rb file_path) as [f|e]; cbn [mbind result_bind].
    + destruct (hash_chunks f [md5; sha1; sha256]) as [hs|e] eqn:Hh; cbn.
      * eexists; split; [reflexivity|]. rewrite length_map.
        apply hash_chunks_length in Hh. exact Hh.
      * eexists; split; reflexivity.
    + eexists; split; reflexivity.
Qed.

(** When no read fails, the digests are those of the bytes of the file. *)
Lemma hash_file_content (open_rb : string -> result open_file)
    (file_path : string) (f : open_file) (hs : list hasher) :
  open_rb file_path = Ok f ->
  hash_chunks f [md5; sha1; sha256] = Ok hs ->
  _hash_file open_rb file_path
  = Ok [digest MD5 (file_content f); digest SHA1 (file_content f);
        digest SHA256 (file_content f)].
Proof.
  intros Ho Hh. unfold _hash_file, try_except. rewrite Ho.
  cbn [mbind result_bind]. rewrite Hh.
  apply hash_chunks_fed in Hh. subst hs. reflexivity.
Qed.

End HashFileFacts.

Lemma C9_hash_file_witness :
  _hash_file (HL := sample_hashlib)
    (fun path => if bool_decide (path = "/empty"%string) then Ok [] else Raise IOError)
    "/empty" = Ok ["md5:"; "sha1:"; "sha256:"]%string
  /\ _hash_file (HL := sample_hashlib)
    (fun path => if bool_decide (path = "/empty"%string) then Ok [] else Raise IOError)
    "/missing" = Ok [""; ""; ""]%string
  /\ _hash_file (HL := sample_hashlib)
    (fun _ => Ok [Ok "ab"; Raise IOError]%string)
    "/unreadable" = Ok [""; ""; ""]%string.
Proof.
  split; [|split].
  - refine (proj1 (C9_hash_file (HL := sample_hashlib) _ "/empty") [] _ _);
      reflexivity.
  - refine (proj1 (proj2 (C9_hash_file (HL := sample_hashlib) _ "/missing"))
              IOError _).
    reflexivity.
  - refine (proj1 (proj2 (proj2 (C9_hash_file (HL := sample_hashlib)
              (fun _ => Ok [Ok "ab"; Raise IOError]%string) "/unreadable")))
              [Ok "ab"; Raise IOError]%string _ _);
      reflexivity.
Defined.

Example hash_file_two_chunks :
  _hash_file (HL := sample_hashlib)
    (fun _ => Ok [Ok "abc"; Ok "de"]%string) "/some/file"
  = Ok ["md5:abcde"; "sha1:abcde"; "sha256:abcde"]%string.
Proof. reflexivity. Qed.

(** ** Logger *)

Section LoggerFacts.
Context {V : Type} `{LR : LoggerRuntime V}.

Lemma run_bind {A B} (m : prog V A) (k : A -> prog V B) (st : logger_state V) :
  run (m ≫= k) st
  = match run m st with
    | (Ok a, st') => run (k a) st'
    | (Raise e, st') => (Raise e, st')
    end.
Proof. reflexivity. Qed.

Lemma same_but_output_refl (st : logger_state V) : same_but_output st st.
Proof. repeat split. Qed.

Lemma same_but_output_trans (st1 st2 st3 : logger_state V) :
  same_but_output st1 st2 -> same_but_output st2 st3 -> same_but_output st1 st3.
Proof. unfold same_but_output. intuition congruence. Qed.

Lemma dumps_record_frame (record : loc) (st st' : logger_state V)
    (res : result string) :
  run (dumps_record record) st = (res, st') -> st' = st.
Proof.
  unfold dumps_record. cbn. destruct (heap st !! record); intros [= _ <-]; reflexivity.
Qed.

Lemma output_write_frame (s : string) (st st' : logger_state V)
    (res : result unit) :
  run (output_write s) st = (res, st') -> same_but_output st st'.
Proof.
  unfold output_write. cbn. destruct (file_write _ _). intros [= _ <-].
  repeat split.
Qed.

Lemma output_flush_frame (st st' : logger_state V) (res : result unit) :
  run output_flush st = (res, st') -> st' = st.
Proof. unfold output_flush. cbn. intros [= _ <-]. reflexivity. Qed.

Ltac run_step :=
  match goal with
  | |- context [run (?m ≫= ?k) ?st] =>
      rewrite (run_bind m k st);
      let a := fresh "a" in
      let e := fresh "e" in
      let st' := fresh "st" in
      let H := fresh "Hrun" in
      destruct (run m st) as [[a|e] st'] eqn:H
  end.

(** A failing [write_line] changes nothing but the output file. *)
Lemma write_line_Raise (record : loc) (st st' : logger_state V) (e : exc) :
  run (write_line record) st = (Raise e, st') -> same_but_output st st'.
Proof.
  unfold write_line.
  run_step; [|intros [= <- <-]; apply dumps_record_frame in Hrun; subst;
               apply same_but_output_refl].
  apply dumps_record_frame in Hrun. subst st0.
  run_step; [|intros [= <- <-]; eapply output_write_frame; eauto].
  apply output_write_frame in Hrun.
  run_step; [|intros [= <- <-]; apply output_write_frame in Hrun0;
               eapply same_but_output_trans; eauto].
  apply output_write_frame in Hrun0.
  run_step; [discriminate|].
  intros [= <- <-]. apply output_flush_frame in Hrun1. subst.
  eapply same_but_output_trans; eauto.
Qed.

(** [write_line] when nothing fails. *)
Lemma write_line_Ok (record : loc) (st : logger_state V)
    (d : gmap string V) (s : string) :
  heap st !! record = Some d ->
  dumps d = Ok s ->
  write_fault (output_file st) (written (output_file st)) s = None ->
  write_fault (output_file st) (written (output_file st) ++ [s]) newline = None ->
  flush_fault (output_file st) (written (output_file st) ++ [s; newline]) = None ->
  exists st',
    run (write_line record) st = (Ok (), st')
    /\ heap st' = heap st /\ extras st' = extras st
    /\ written (output_file st') = written (output_file st) ++ [s; newline]
    /\ write_fault (output_file st') = write_fault (output_file st)
    /\ flush_fault (output_file st') = flush_fault (output_file st)
    /\ lines_written st' = lines_written st + 1
    /\ stderr st' = stderr st /\ DEBUG_MODE st' = DEBUG_MODE st.
Proof.
  intros Hr Hd Hw1 Hw2 Hf.
  unfold write_line, dumps_record, output_write, output_flush,
    incr_lines_written, file_write, file_flush.
  cbn [run mbind prog_bind]. rewrite Hr, Hd. cbn. rewrite Hw1. cbn.
  rewrite Hw2. cbn. rewrite <- app_assoc. cbn [app]. rewrite Hf.
  eexists. split; [reflexivity|]. cbn. repeat split; reflexivity.
Qed.

(** [log_dict] when nothing fails (and the recursion limit allows the
    call). *)
Lemma log_dict_Ok (depth : nat) (record : loc) (st : logger_state V)
    (d : gmap string V) (s : string) :
  heap st !! record = Some d ->
  dumps (extras st ∪ d) = Ok s ->
  write_fault (output_file st) (written (output_file st)) s = None ->
  write_fault (output_file st) (written (output_file st) ++ [s]) newline = None ->
  flush_fault (output_file st) (written (output_file st) ++ [s; newline]) = None ->
  exists st',
    run (log_dict (S depth) record) st = (Ok (), st')
    /\ heap st' = <[record := extras st ∪ d]> (heap st)
    /\ extras st' = extras st
    /\ written (output_file st') = written (output_file st) ++ [s; newline]
    /\ write_fault (output_file st') = write_fault (output_file st)
    /\ flush_fault (output_file st') = flush_fault (output_file st)
    /\ lines_written st' = lines_written st + 1
    /\ stderr st' = stderr st /\ DEBUG_MODE st' = DEBUG_MODE st.
Proof.
  intros Hr Hd Hw1 Hw2 Hf.
  cbn [log_dict]. rewrite run_bind. cbn [run record_update]. rewrite Hr.
  set (st1 := set_heap (<[record := extras st ∪ d]> (heap st)) st).
  destruct (write_line_Ok record st1 (extras st ∪ d) s)
    as (st' & Hrun & Hheap & Hex & Hout & Hwf & Hff & Hl & Herr & Hdbg);
    try assumption.
  { cbn. apply lookup_insert_eq. }
  unfold py_try. cbn [run]. rewrite Hrun.
  exists st'. repeat split; assumption.
Qed.

(** C7: when serialisation, the two writes and the flush succeed,
    [log_dict] writes the serialised record and then one line terminator,
    adds one to [lines_written] and returns; the record serialised is the
    caller's record overlaid with the extras: it has every key of either,
    and the value of the extras for every key of the extras. *)
Theorem C7_log_dict_success (depth : nat) (record : loc)
    (st : logger_state V) (d : gmap string V) (s : string) :
  heap st !! record = Some d ->
  dumps (extras st ∪ d) = Ok s ->
  write_fault (output_file st) (written (output_file st)) s = None ->
  write_fault (output_file st) (written (output_file st) ++ [s]) newline = None ->
  flush_fault (output_file st) (written (output_file st) ++ [s; newline]) = None ->
  exists st',
    run (log_dict (S depth) record) st = (Ok (), st')
    /\ written (output_file st') = written (output_file st) ++ [s; newline]
    /\ lines_written st' = lines_written st + 1
    /\ (forall k, is_Some (d !! k) \/ is_Some (extras st !! k) ->
                  is_Some ((extras st ∪ d) !! k))
    /\ (forall k v, extras st !! k = Some v -> (extras st ∪ d) !! k = Some v).
Proof.
  intros Hr Hd Hw1 Hw2 Hf.
  destruct (log_dict_Ok depth record st d s Hr Hd Hw1 Hw2 Hf)
    as (st' & Hrun & _ & _ & Hout & _ & _ & Hl & _).
  exists st'. repeat split; try assumption.
  - intros k Hk. apply lookup_union_is_Some. tauto.
  - intros k v Hk. apply lookup_union_Some_l. exact Hk.
Qed.

(** *** What a call leaves in place *)

Lemma preserves_bind {A B} (P : logger_state V -> Prop) (m : prog V A)
    (k : A -> prog V B) :
  preserves P m -> (forall a, preserves P (k a)) -> preserves P (m ≫= k).
Proof.
  intros Hm Hk st res st' HP. rewrite run_bind.
  destruct (run m st) as [[a|e] st1] eqn:Hrun.
  - intros Hka. eapply Hk; [|exact Hka]. eapply Hm; eauto.
  - intros [= <- <-]. eapply Hm; eauto.
Qed.

Lemma preserves_try {A} (P : logger_state V -> Prop) (body : prog V A)
    (handles : exc -> bool) (handler : exc -> prog V A) :
  preserves P body -> (forall e, preserves P (handler e)) ->
  preserves P (py_try body handles handler).
Proof.
  intros Hb Hh st res st' HP. unfold py_try. cbn [run].
  destruct (run body st) as [[a|e] st1] eqn:Hrun.
  - intros [= <- <-]. eapply Hb; eauto.
  - destruct (handles e).
    + intros He. eapply Hh; [|exact He]. eapply Hb; eauto.
    + intros [= <- <-]. eapply Hb; eauto.
Qed.

Lemma preserves_heap_only {A} (P : logger_state V -> Prop) (p : prog V A) :
  (forall st st', heap st' = heap st -> P st -> P st') ->
  (forall st res st', run p st = (res, st') -> heap st' = heap st) ->
  preserves P p.
Proof. intros HP Hp st res st' H Hrun. eapply HP; eauto. Qed.

Section KeepsRecord.
Variables (l : loc) (m : gmap string V).

Let kept (st : logger_state V) : Prop := heap st !! l = Some m.

Lemma kept_heap (st st' : logger_state V) :
  heap st' = heap st -> kept st -> kept st'.
Proof. unfold kept. intros ->. auto. Qed.

Lemma stderr_write_keeps (s : string) : preserves kept (stderr_write s).
Proof.
  apply preserves_heap_only; [apply kept_heap|].
  intros st res st'. unfold stderr_write. cbn.
  destruct (file_write _ _). intros [= _ <-]. reflexivity.
Qed.

Lemma write_line_keeps (record : loc) : preserves kept (write_line record).
Proof.
  unfold write_line.
  repeat (apply preserves_bind; [|intros ?]);
    (apply preserves_heap_only; [apply kept_heap|]); intros st res st'.
  - intros H%dumps_record_frame. subst. reflexivity.
  - intros H%output_write_frame. apply H.
  - intros H%output_write_frame. apply H.
  - intros H%output_flush_frame. subst. reflexivity.
  - cbn. intros [= _ <-]. reflexivity.
Qed.

Lemma log_error_with_keeps (log_dict' : loc -> prog V unit) (message : string) :
  (forall record, record <> l -> preserves kept (log_dict' record)) ->
  preserves kept (log_error_with log_dict' message).
Proof.
  intros Hld st res st' Hk. unfold log_error_with. rewrite run_bind.
  cbn [run new_dict].
  set (l' := fresh (dom (heap st))).
  assert (Hl' : l' <> l).
  { intros Heq. apply (is_fresh (dom (heap st))). fold l'. rewrite Heq.
    apply elem_of_dom. exists m. exact Hk. }
  assert (Hrest : preserves kept
    (log_dict' l';;
     stderr_write "[ERROR] ";;
     stderr_write message;;
     extras ← get_extras;
     stderr_write (" - " +:+ repr_extras extras +:+ newline))).
  { repeat (apply preserves_bind; [|intros ?]);
      auto using stderr_write_keeps.
    apply preserves_heap_only; [apply kept_heap|].
    intros ? ? ?. cbn. intros [= _ <-]. reflexivity. }
  apply Hrest. unfold kept. cbn. rewrite lookup_insert_ne by auto. exact Hk.
Qed.

(** A call of [log_dict] on another record leaves the record at [l] as
    it is. *)
Lemma log_dict_keeps (depth : nat) :
  forall record, record <> l -> preserves kept (log_dict depth record).
Proof.
  induction depth as [|depth IH]; intros record Hne.
  - intros st res st' Hk. cbn. intros [= _ <-]. exact Hk.
  - cbn [log_dict]. apply preserves_bind; [|intros _].
    + intros st res st' Hk. unfold record_update. cbn.
      destruct (heap st !! record); intros [= _ <-]; [|exact Hk].
      unfold kept. cbn. rewrite lookup_insert_ne by auto. exact Hk.
    + apply preserves_try; [apply write_line_keeps|].
      intros e. apply preserves_bind; [|intros _].
      * intros st res st' Hk. cbn. intros [= _ <-]. exact Hk.
      * apply log_error_with_keeps. exact IH.
Qed.

Lemma log_dict_handler_keeps (depth : nat) (record : loc) :
  preserves kept
    (py_try (write_line record) is_Exception
       (fun e => debugbreak;; log_exception_with (log_dict depth) e "")).
Proof.
  apply preserves_try; [apply write_line_keeps|].
  intros e. apply preserves_bind; [|intros _].
  - intros st res st' Hk. cbn. intros [= _ <-]. exact Hk.
  - apply log_error_with_keeps. apply log_dict_keeps.
Qed.

End KeepsRecord.

(** C10: however a call of [log_dict] ends, the dict object the caller
    passed is afterwards the caller's record overlaid with the extras
    active at the call: it has every key of the extras with the value of
    the extras, and keeps its other keys. *)
Theorem C10_log_dict_updates_record (depth : nat) (record : loc)
    (st st' : logger_state V) (d : gmap string V) (res : result unit) :
  heap st !! record = Some d ->
  run (log_dict (S depth) record) st = (res, st') ->
  heap st' !! record = Some (extras st ∪ d)
  /\ (forall k v, extras st !! k = Some v -> (extras st ∪ d) !! k = Some v)
  /\ (forall k v, extras st !! k = None -> d !! k = Some v ->
                  (extras st ∪ d) !! k = Some v).
Proof.
  intros Hr. cbn [log_dict]. rewrite run_bind. cbn [run record_update].
  rewrite Hr. intros Hrun. repeat split.
  - eapply (log_dict_handler_keeps record (extras st ∪ d) depth record);
      [|exact Hrun].
    cbn. apply lookup_insert_eq.
  - intros k v Hk. apply lookup_union_Some_l. exact Hk.
  - intros k v Hn Hk. rewrite lookup_union_r by exact Hn. exact Hk.
Qed.

Lemma stderr_write_Ok (s : string) (st : logger_state V) :
  write_fault (stderr st) (written (stderr st)) s = None ->
  exists st',
    run (stderr_write s) st = (Ok (), st')
    /\ written (stderr st') = written (stderr st) ++ [s]
    /\ write_fault (stderr st') = write_fault (stderr st)
    /\ extras st' = extras st /\ lines_written st' = lines_written st
    /\ output_file st' = output_file st /\ heap st' = heap st.
Proof.
  intros Hw. unfold stderr_write, file_write. cbn [run]. rewrite Hw.
  eexists. split; [reflexivity|]. cbn. repeat split; reflexivity.
Qed.


Lemma Extra__enter__extras (self : Extra V) (st st1 : logger_state V)
    (res : result unit) :
  run (Extra__enter__ self) st = (res, st1) ->
  extras st1 = <[key self := val self]> (extras st).
Proof.
  unfold Extra__enter__. rewrite run_bind. cbn [run].
  rewrite run_bind. cbn [run get_DEBUG_MODE].
  destruct (DEBUG_MODE _).
  - rewrite run_bind. cbn [run lift].
    destruct (dumps _); [|intros [= _ <-]; reflexivity].
    rewrite run_bind. unfold stderr_write at 1. cbn [run].
    destruct (file_write _ _) as [[[]|e1] f1]; [|intros [= _ <-]; reflexivity].
    unfold stderr_write. cbn [run].
    destruct (file_write _ _) as [r2 f2]. intros [= _ <-]. reflexivity.
  - cbn. intros [= _ <-]. reflexivity.
Qed.

(** C1, amended: entering a scope sets the key, so a record logged inside
    carries the value pushed last; leaving the scope deletes the key,
    whether the body returned or raised.  This restores the state recorded
    at the push exactly when the key was absent then, as it is for scopes
    on different keys, however they nest.  When the key was already set (a
    scope on the same key is open), the outer value is not brought back:
    the key is gone. *)
Theorem C1_scope_release {A} (k : string) (v : V) (body : prog V A)
    (st st1 st2 : logger_state V) (res : result A) :
  run (Extra__enter__ {| key := k; val := v |}) st = (Ok (), st1) ->
  run body st1 = (res, st2) ->
  extras st2 = extras st1 ->
  extras st1 = <[k := v]> (extras st)
  /\ (forall d : gmap string V, (extras st1 ∪ d) !! k = Some v)
  /\ run (with_Extra k v body) st
     = (res, set_extras (delete k (extras st)) st2)
  /\ (extras st !! k = None -> delete k (extras st) = extras st)
  /\ (forall w, extras st !! k = Some w -> delete k (extras st) !! k = None).
Proof.
  intros Henter Hbody Hsame.
  pose proof (Extra__enter__extras _ _ _ _ Henter) as Hex1. cbn in Hex1.
  split; [exact Hex1|]. split; [|split; [|split]].
  - intros d. apply lookup_union_Some_l. rewrite Hex1. apply lookup_insert_eq.
  - unfold with_Extra. rewrite run_bind, Henter. cbn [run]. rewrite Hbody.
    assert (Hexit : run (Extra__exit__ {| key := k; val := v |}) st2
                    = (Ok (), set_extras (delete k (extras st)) st2)).
    { unfold Extra__exit__. cbn [run key]. rewrite Hsame, Hex1.
      rewrite lookup_insert_eq, delete_insert_eq. reflexivity. }
    destruct res as [a|e]; rewrite run_bind, Hexit; reflexivity.
  - apply delete_id.
  - intros w _. apply lookup_delete_eq.
Qed.

End LoggerFacts.

(** *** The logger on examples *)

Section LoggerExamples.
#[local] Existing Instance sample_logger_runtime.

(** The spec's example: record [{"k": "v"}] under context
    [{"phase": "x"}]. *)
Lemma C7_log_dict_success_witness :
  exists st',
    run (log_dict 1 1%positive)
      (set_extras {[ "phase"%string := Some "x"%string ]}
         (sample_state [ {[ "k"%string := Some "v"%string ]} ] good_file))
    = (Ok (), st')
    /\ length (written (output_file st')) = 2%nat
    /\ lines_written st' = 1.
Proof.
  destruct (C7_log_dict_success 0 1%positive
    (set_extras {[ "phase"%string := Some "x"%string ]}
       (sample_state [ {[ "k"%string := Some "v"%string ]} ] good_file))
    {[ "k"%string := Some "v"%string ]}
    (default ""%string
       (match sample_dumps {[ "phase"%string := Some "x"%string;
                              "k"%string := Some "v"%string ]} with
        | Ok s => Some s
        | Raise _ => None
        end)))
    as (st' & Hrun & Hout & Hl & _).
  - vm_compute. reflexivity.
  - vm_compute. reflexivity.
  - reflexivity.
  - reflexivity.
  - reflexivity.
  - exists st'. split; [exact Hrun|]. split; [|exact Hl].
    rewrite Hout. reflexivity.
Defined.

Lemma C10_log_dict_updates_record_witness :
  heap (snd (run (log_dict 1 1%positive)
    (set_extras {[ "phase"%string := Some "x"%string ]}
       (sample_state [ {[ "k"%string := Some "v"%string;
                         "phase"%string := Some "caller"%string ]} ] good_file))))
    !! 1%positive
  = Some ({[ "phase"%string := Some "x"%string ]}
          ∪ {[ "k"%string := Some "v"%string;
               "phase"%string := Some "caller"%string ]}).
Proof.
  refine (proj1 (C10_log_dict_updates_record 0 1%positive
    (set_extras {[ "phase"%string := Some "x"%string ]}
       (sample_state [ {[ "k"%string := Some "v"%string;
                         "phase"%string := Some "caller"%string ]} ] good_file))
    _ _ _ _ _)).
  - vm_compute. reflexivity.
  - apply surjective_pairing.
Defined.



Lemma C1_scope_release_witness :
  exists st2,
    run (with_Extra "user" (Some "alice"%string) (log_dict 1 1%positive))
      (sample_state [ {[ "k"%string := Some "v"%string ]} ] good_file)
    = (Ok (), set_extras (delete "user"%string ∅) st2)
    /\ heap st2 !! 1%positive
       = Some {[ "user"%string := Some "alice"%string;
                 "k"%string := Some "v"%string ]}.
Proof.
  eexists. split.
  - refine (proj1 (proj2 (proj2 (C1_scope_release "user" (Some "alice"%string)
      (log_dict 1 1%positive)
      (sample_state [ {[ "k"%string := Some "v"%string ]} ] good_file)
      _ _ (Ok ()) _ _ _)))).
    + vm_compute. reflexivity.
    + vm_compute. reflexivity.
    + vm_compute. reflexivity.
  - vm_compute. reflexivity.
Defined.

(** The scenario of the claim: push user=alice, push user=bob, log record
    1, release, log record 2, release.  Record 1 carries user=bob; after
    the inner release record 2 carries no user (not alice); the outer
    release raises [KeyError]. *)
Lemma C1_nested_same_key :
  let '(res, st') :=
    run (with_Extra "user" (Some "alice"%string)
           (with_Extra "user" (Some "bob"%string) (log_dict 1 1%positive);;
            log_dict 1 2%positive))
      (sample_state [ {[ "k"%string := Some "v"%string ]};
                      {[ "k"%string := Some "v"%string ]} ] good_file) in
  res = Raise KeyError
  /\ (heap st' !! 1%positive) ≫= (.!! "user"%string) = Some (Some "bob"%string)
  /\ (heap st' !! 2%positive) ≫= (.!! "user"%string) = None.
Proof. vm_compute. repeat split. Qed.

End LoggerExamples.

(** * Further properties *)

(** ** Timestamp inference *)

Section TimestampMore.
Context {F : Type} `{RT : Runtime F}.

Lemma convert_to_local_Ok {A} (func : A -> result datetime) (a : A) (dt : datetime) :
  _convert_to_local func a = Ok dt ->
  exists t, dt = DATETIME_1970 + (t + utc_offset t) * US_PER_SECOND.
Proof.
  unfold _convert_to_local. destruct (func a) as [dt0|e]; cbn; [|discriminate].
  unfold fromtimestamp. destruct (in_datetime_range _); [|discriminate].
  intros [= <-]. eauto.
Qed.

Lemma value_to_datetime_local (val : pyval F) (dt : datetime) :
  _value_to_datetime val = Some dt ->
  exists t, dt = DATETIME_1970 + (t + utc_offset t) * US_PER_SECOND.
Proof.
  unfold _value_to_datetime.
  destruct (float_if_basestring val) as [v|]; [|discriminate].
  rewrite !py_or_Some.
  intros [H|[_ [H|[_ [H|[_ H]]]]]];
    apply errorhandling_Some in H as [H _];
    eapply convert_to_local_Ok; exact H.
Qed.

(** X1: every date [_value_to_datetime] returns is a whole number of
    seconds: the conversion to local time goes through [timetuple], which
    has no microseconds. *)
Theorem value_to_datetime_whole_seconds (val : pyval F) (dt : datetime) :
  _value_to_datetime val = Some dt ->
  dt mod US_PER_SECOND = 0.
Proof.
  intros [t ->]%value_to_datetime_local.
  calendar_constants.
  generalize (t + utc_offset t). intros k.
  Z.div_mod_to_equations. lia.
Qed.

(** X2: values that are neither numbers nor text are never taken for
    timestamps. *)
Theorem value_to_datetime_number_or_text (val : pyval F) :
  is_number_or_text val = false -> _value_to_datetime val = None.
Proof.
  intros Hval. unfold _value_to_datetime.
  assert (Hf : float_if_basestring val = Some val).
  { destruct val; try discriminate Hval; reflexivity. }
  rewrite Hf.
  assert (Hc : forall (base unit : Z),
             _timestamp_errorhandling (_convert_to_local (fun v =>
               td ← timedelta_of unit v; datetime_add base td)) val = None).
  { intros base unit. unfold _timestamp_errorhandling, _convert_to_local.
    destruct val; try discriminate Hval; reflexivity. }
  unfold _microseconds_since_epoch_to_datetime,
    _microseconds_since_1601_to_datetime, _seconds_since_epoch_to_datetime,
    _seconds_since_2001_to_datetime.
  rewrite !Hc. reflexivity.
Qed.

(** X3: under a key that hints at a timestamp, a value the inference
    accepts is returned as its date string; the formatting cannot fail,
    since accepted dates are not before 2004. *)
Theorem normalize_timestamp_string (val key : pyval F) (ts : datetime) :
  key_hints_timestamp key = Ok true ->
  _value_to_datetime val = Some ts ->
  _normalize_val val key = Ok (PStr (strftime ts)).
Proof.
  intros Hk Hts. rewrite _normalize_val_eq, Hk. cbn [mbind result_bind].
  rewrite Hts. unfold _datetime_to_string.
  apply value_to_datetime_window in Hts as [Hy _].
  destruct (dt_year ts <? 1900) eqn:Hlt; [|reflexivity].
  apply Z.ltb_lt in Hlt. unfold MIN_YEAR in Hy. lia.
Qed.

(** X4: the hint plays no part for a value that is neither a number nor
    text: a container or an object is normalised as without hint. *)
Theorem normalize_hint_ignored (val key : pyval F) :
  is_number_or_text val = false ->
  hint_is_string_or_false key = true ->
  _normalize_val val key = _normalize_val val PNone.
Proof.
  intros Hval Hkey.
  apply key_hints_timestamp_string in Hkey as [hinted Hh].
  rewrite (_normalize_val_eq val key), (_normalize_val_eq val PNone), Hh.
  cbn [mbind result_bind key_hints_timestamp py_bool].
  rewrite (value_to_datetime_number_or_text val Hval).
  destruct hinted; reflexivity.
Qed.

(** X5: the only exception that leaves [_normalize_val] is the
    [AttributeError] of [key.lower()], for a key that is true and not a
    string. *)
Theorem normalize_raises_only_for_bad_key (val key : pyval F) (e : exc) :
  _normalize_val val key = Raise e ->
  e = AttributeError /\ hint_is_string_or_false key = false.
Proof.
  intros H. apply _normalize_val_Raise in H. split.
  - eapply key_hints_timestamp_Raise; eauto.
  - destruct (hint_is_string_or_false key) eqn:Hk; [|reflexivity].
    apply key_hints_timestamp_string in Hk as [h Hh]. congruence.
Qed.

End TimestampMore.

Lemma value_to_datetime_whole_seconds_witness :
  mk_datetime 2014 5 13 mod US_PER_SECOND = 0.
Proof.
  refine (value_to_datetime_whole_seconds
    (RT := sample_runtime (mk_datetime 2020 1 1) 0)
    (PInt 1399939200123456) (mk_datetime 2014 5 13) _).
  vm_compute. reflexivity.
Defined.

Lemma value_to_datetime_number_or_text_witness :
  _value_to_datetime (RT := sample_runtime (mk_datetime 2020 1 1) 0)
    (PList [PInt 1400000000]) = None.
Proof.
  refine (value_to_datetime_number_or_text
    (RT := sample_runtime (mk_datetime 2020 1 1) 0) (PList [PInt 1400000000]) _).
  reflexivity.
Defined.

Lemma normalize_timestamp_string_witness :
  _normalize_val (RT := sample_runtime (mk_datetime 2020 1 1) 0)
    (PStr "1400000000") (PUnicode [68; 65; 84; 69]%N)
  = Ok (PStr (strftime (DATETIME_1970 + 1400000000 * US_PER_SECOND))).
Proof.
  refine (normalize_timestamp_string
    (RT := sample_runtime (mk_datetime 2020 1 1) 0) _ _ _ _ _).
  - vm_compute. reflexivity.
  - vm_compute. reflexivity.
Defined.

Lemma normalize_hint_ignored_witness :
  _normalize_val (RT := sample_runtime (mk_datetime 2020 1 1) 0)
    (NSArray [PInt 1400000000]) (PStr "dates")
  = _normalize_val (RT := sample_runtime (mk_datetime 2020 1 1) 0)
      (NSArray [PInt 1400000000]) PNone.
Proof.
  refine (normalize_hint_ignored
    (RT := sample_runtime (mk_datetime 2020 1 1) 0) _ _ _ _); reflexivity.
Defined.

Lemma normalize_raises_only_for_bad_key_witness :
  AttributeError = AttributeError
  /\ hint_is_string_or_false (RT := sample_runtime (mk_datetime 2020 1 1) 0)
       (PInt 5) = false.
Proof.
  refine (normalize_raises_only_for_bad_key
    (RT := sample_runtime (mk_datetime 2020 1 1) 0)
    (PStr "value") (PInt 5) AttributeError _).
  reflexivity.
Defined.

(** ** Value normalisation *)

Lemma map_result_total {A B} (f : A -> result B) (l : list A) :
  (forall a, a ∈ l -> exists b, f a = Ok b) ->
  exists l', map_result f l = Ok l'.
Proof.
  intros H. destruct (map_result f l) as [l'|e] eqn:Hm; [eauto|].
  apply map_result_Raise in Hm as (a & Hin & Ha).
  destruct (H a Hin) as [b Hb]. congruence.
Qed.

Section NormalizeMore.
Context {F : Type} `{RT : Runtime F}.

Lemma normalize_no_hint_Ok (val : pyval F) :
  exists v, _normalize_val val PNone = Ok v.
Proof.
  destruct (_normalize_val val PNone) as [v|e] eqn:Hn; [eauto|].
  apply _normalize_val_Raise in Hn. discriminate.
Qed.

Lemma normalize_container (val key : pyval F) :
  is_number_or_text val = false ->
  hint_is_string_or_false key = true ->
  _normalize_val val key
  = try_except (normalize_dispatch _normalize_val val) is_Exception
      (fun _ => Ok (PStr (py_repr val))).
Proof.
  intros Hval Hkey.
  apply key_hints_timestamp_string in Hkey as [hinted Hh].
  rewrite _normalize_val_eq, Hh. cbn [mbind result_bind].
  rewrite (value_to_datetime_number_or_text val Hval).
  destruct hinted; reflexivity.
Qed.

(** X6: normalisation keeps the shape of containers.  An [NSArray] becomes
    a list of as many elements, each the normal form of the element at its
    place; a dict or [NSDictionary] whose keys are strings becomes a dict
    with the same keys in the same order, each value normalised under its
    own key. *)
Theorem normalize_preserves_structure :
  (forall (l : list (pyval F)) (key : pyval F),
      hint_is_string_or_false key = true ->
      exists l',
        _normalize_val (NSArray l) key = Ok (PList l')
        /\ Forall2 (fun x y => _normalize_val x PNone = Ok y) l l') /\
  (forall (items : list (pyval F * pyval F)) (key : pyval F),
      hint_is_string_or_false key = true ->
      Forall (fun kv => hint_is_string_or_false (fst kv) = true) items ->
      exists items',
        _normalize_val (PDict items) key = Ok (PDict items')
        /\ _normalize_val (NSDictionary items) key = Ok (PDict items')
        /\ Forall2 (fun kv kv' => fst kv' = fst kv
                      /\ _normalize_val (snd kv) (fst kv) = Ok (snd kv'))
             items items').
Proof.
  split.
  - intros l key Hkey.
    destruct (map_result_total (fun stuff => _normalize_val stuff PNone) l)
      as [l' Hm].
    { intros a _. apply normalize_no_hint_Ok. }
    exists l'. split.
    + rewrite normalize_container by (assumption || reflexivity).
      cbn [normalize_dispatch]. rewrite Hm. reflexivity.
    + apply map_result_Ok in Hm. exact Hm.
  - intros items key Hkey Hkeys.
    destruct (map_result_total
      (fun '(k, v) => v' ← _normalize_val v k; Ok (k, v')) items) as [items' Hm].
    { intros [k v] Hin. rewrite Forall_forall in Hkeys.
      specialize (Hkeys _ Hin). cbn in Hkeys.
      destruct (_normalize_val v k) as [v'|e] eqn:Hn; cbn; [eauto|].
      apply _normalize_val_Raise in Hn.
      apply key_hints_timestamp_string in Hkeys as [h Hh]. congruence. }
    exists items'. repeat split.
    + rewrite normalize_container by (assumption || reflexivity).
      cbn [normalize_dispatch]. rewrite Hm. reflexivity.
    + rewrite normalize_container by (assumption || reflexivity).
      cbn [normalize_dispatch]. rewrite Hm. reflexivity.
    + apply map_result_Ok in Hm.
      eapply Forall2_impl; [exact Hm|].
      intros [k v] [k' v']. cbn.
      destruct (_normalize_val v k) as [v0|e]; cbn; [|discriminate].
      intros [= -> ->]. split; reflexivity.
Qed.


End NormalizeMore.


(** A key [json] does not write stays in the result: the empty tuple is
    false, so it is not asked for [lower()], and the dict comes back with
    it. *)
Example normalize_keeps_key :
  _normalize_val (RT := sample_runtime (mk_datetime 2020 1 1) 0)
    (PDict [(PTuple [], PInt 1)]) PNone
  = Ok (PDict [(PTuple [], PInt 1)])
  /\ json_value (F := Z) (PDict [(PTuple [], PInt 1)]) = false.
Proof. split; reflexivity. Qed.

Lemma normalize_preserves_structure_witness :
  exists items',
    _normalize_val (RT := sample_runtime (mk_datetime 2020 1 1) 0)
      (NSDictionary [(PStr "Name", PStr "x"); (PStr "Date", PInt 1400000000)])
      PNone = Ok (PDict items')
    /\ map fst items' = [PStr "Name"; PStr "Date"].
Proof.
  destruct (proj2 (normalize_preserves_structure
    (RT := sample_runtime (mk_datetime 2020 1 1) 0))
    [(PStr "Name", PStr "x"); (PStr "Date", PInt 1400000000)] PNone)
    as (items' & _ & Hn & Hf).
  - reflexivity.
  - repeat constructor.
  - exists items'. split; [exact Hn|].
    inversion Hf as [|? [k1 v1] ? ? [H1 _] Hf1]; subst.
    inversion Hf1 as [|? [k2 v2] ? ? [H2 _] Hf2]; subst.
    inversion Hf2; subst. cbn in *. congruence.
Defined.

(** ** DictUtils *)

Lemma split_on_not_nil {A} (is_sep : A -> bool) (l : list A) :
  split_on is_sep l <> [].
Proof.
  destruct l as [|a l]; cbn; [discriminate|].
  destruct (is_sep a); [discriminate|].
  destruct (split_on is_sep l); discriminate.
Qed.

Lemma split_on_app {A} (is_sep : A -> bool) (l1 l2 : list A) (sep : A) :
  is_sep sep = true ->
  split_on is_sep (l1 ++ sep :: l2) = split_on is_sep l1 ++ split_on is_sep l2.
Proof.
  intros Hsep. induction l1 as [|a l1 IH]; cbn.
  - rewrite Hsep. reflexivity.
  - destruct (is_sep a); [rewrite IH; reflexivity|].
    rewrite IH.
    pose proof (split_on_not_nil is_sep l1) as Hne.
    destruct (split_on is_sep l1); [contradiction|reflexivity].
Qed.

Lemma list_ascii_of_string_app (s t : string) :
  list_ascii_of_string (s +:+ t) = list_ascii_of_string s ++ list_ascii_of_string t.
Proof.
  induction s as [|a s IH]; [reflexivity|].
  change (a :: list_ascii_of_string (s +:+ t)
          = a :: (list_ascii_of_string s ++ list_ascii_of_string t)).
  f_equal. exact IH.
Qed.

Lemma path_segments_app (p q : string) :
  path_segments (p +:+ "." +:+ q) = path_segments p ++ path_segments q.
Proof.
  unfold path_segments. rewrite list_ascii_of_string_app.
  change (list_ascii_of_string ("." +:+ q)) with ("."%char :: list_ascii_of_string q).
  rewrite split_on_app by reflexivity. apply fmap_app.
Qed.

Section DictUtilsMore.
Context {F : Type} `{RT : Runtime F}.

Lemma link_path_segments (path : string) :
  path <> ""%string ->
  _link_path_to_chain (PStr path) = Ok (PList (@PStr F <$> path_segments path)).
Proof.
  intros Hne. destruct path as [|c path]; [contradiction|].
  unfold _link_path_to_chain, path_segments.
  rewrite <- list_fmap_compose. reflexivity.
Qed.

(** [get_deep] on a non-empty [str] path follows its segments. *)
Lemma get_deep_segments (x default : pyval F) (path : string) :
  path <> ""%string ->
  get_deep x (PStr path) default
  = try_except (follow_chain x (PStr <$> path_segments path))
      (catches [KeyError; TypeError; ValueError]) (fun _ => Ok default).
Proof.
  intros Hne. unfold get_deep. rewrite link_path_segments by assumption.
  cbn [mbind result_bind]. unfold _get_deep_by_chain, path_segments.
  pose proof (split_on_not_nil (fun c => bool_decide (c = "."%char))
                (list_ascii_of_string path)) as Hs.
  destruct (split_on _ _) as [|piece pieces]; [contradiction|reflexivity].
Qed.

Lemma follow_chain_app (x : pyval F) (l1 l2 : list (pyval F)) :
  follow_chain x (l1 ++ l2) = (x' ← follow_chain x l1; follow_chain x' l2).
Proof.
  revert x. induction l1 as [|link l1 IH]; intros x; cbn; [reflexivity|].
  destruct (follow_link x link); cbn; [apply IH|reflexivity].
Qed.

Lemma getitem_str_Raise (x : pyval F) (s : string) (e : exc) :
  getitem x (PStr s) = Raise e -> e = KeyError \/ e = TypeError.
Proof.
  unfold getitem. destruct x; cbn; try (intros [= <-]; tauto).
  all: destruct (dict_get _ _); [discriminate|intros [= <-]; tauto].
Qed.

Lemma follow_link_name_Raise (x : pyval F) (s : string) (e : exc) :
  is_index_segment s = false ->
  follow_link x (PStr s) = Raise e -> e = ValueError.
Proof.
  unfold is_index_segment. intros Hs%bool_decide_eq_false.
  assert (Hi : int_of_bytes (bytes_of s) = None).
  { destruct (int_of_bytes (bytes_of s)); [exfalso; apply Hs; eauto|reflexivity]. }
  unfold follow_link, try_except.
  destruct (getitem x (PStr s)) as [v|e0] eqn:Hg; [discriminate|].
  apply getitem_str_Raise in Hg as [-> | ->]; cbn [py_int]; rewrite Hi;
    vm_compute; intros [= <-]; reflexivity.
Qed.

(** X9: a [str] path none of whose segments reads as an integer never makes
    [get_deep] raise: a missing key or a value that is not a container gives
    the default. *)
Theorem get_deep_names_never_raise (x default : pyval F) (path : string) :
  Forall (fun segment => is_index_segment segment = false) (path_segments path) ->
  exists v, get_deep x (PStr path) default = Ok v.
Proof.
  intros Hsegs.
  destruct (decide (path = ""%string)) as [->|Hne]; [eexists; reflexivity|].
  rewrite get_deep_segments by assumption.
  assert (Hchain : forall x e,
             follow_chain x (PStr <$> path_segments path) = Raise e ->
             e = ValueError).
  { induction Hsegs as [|s segs Hs _ IH]; intros x0 e; cbn; [discriminate|].
    destruct (follow_link x0 (PStr s)) as [x'|e0] eqn:Hl; cbn.
    - apply IH.
    - intros [= <-]. eapply follow_link_name_Raise; eauto. }
  unfold try_except.
  destruct (follow_chain x _) as [v|e] eqn:Hf; [eauto|].
  apply Hchain in Hf. subst e. eexists. reflexivity.
Qed.

(** X10: paths compose: when the segments of [p] lead from [x] to [y],
    looking up [p.q] in [x] is looking up [q] in [y]. *)
Theorem get_deep_compose (x y default : pyval F) (p q : string) :
  q <> ""%string ->
  follow_chain x (PStr <$> path_segments p) = Ok y ->
  get_deep x (PStr (p +:+ "." +:+ q)) default = get_deep y (PStr q) default.
Proof.
  intros Hq Hp.
  rewrite (get_deep_segments x), (get_deep_segments y) by
    (assumption || (destruct p; discriminate)).
  rewrite path_segments_app, fmap_app, follow_chain_app, Hp. reflexivity.
Qed.

(** X11: looking up a single name in a dict: the value stored under it,
    wherever it stands in the dict, is returned; when the name is not a key
    and does not read as an integer, the default is. *)
Theorem get_deep_single_key (items : list (pyval F * pyval F))
    (name : string) (default : pyval F) :
  path_segments name = [name] ->
  name <> ""%string ->
  (forall v, dict_get items (PStr name) = Some v ->
     get_deep (PDict items) (PStr name) default = Ok v)
  /\ (dict_get items (PStr name) = None ->
      is_index_segment name = false ->
      get_deep (PDict items) (PStr name) default = Ok default).
Proof.
  intros Hseg Hne. split.
  - intros v Hget.
    rewrite get_deep_segments, Hseg by assumption. cbn.
    unfold follow_link, try_except, getitem. cbn. rewrite Hget. reflexivity.
  - intros Hmiss Hidx.
    rewrite get_deep_segments, Hseg by assumption. cbn.
    unfold follow_link, try_except, getitem. cbn. rewrite Hmiss. cbn.
    unfold is_index_segment in Hidx. apply bool_decide_eq_false in Hidx.
    destruct (int_of_bytes (bytes_of name)); [exfalso; apply Hidx; eauto|].
    reflexivity.
Qed.

End DictUtilsMore.

(** The paths the collector passes to [get_deep] are names. *)
Lemma get_deep_names_never_raise_witness :
  exists v,
    get_deep (RT := sample_runtime (mk_datetime 2020 1 1) 0)
      (PDict [(PStr "SessionItems", PInt 1)])
      (PStr "SessionItems.CustomListItems") (PList []) = Ok v.
Proof.
  refine (get_deep_names_never_raise
    (RT := sample_runtime (mk_datetime 2020 1 1) 0) _ _ _ _).
  vm_compute. repeat constructor.
Defined.

Lemma get_deep_compose_witness :
  get_deep (RT := sample_runtime (mk_datetime 2020 1 1) 0)
    (PDict [(PStr "a", PDict [(PStr "b", PList [PInt 10; PInt 20])])])
    (PStr ("a.b" +:+ "." +:+ "1")) PNone
  = get_deep (RT := sample_runtime (mk_datetime 2020 1 1) 0)
      (PList [PInt 10; PInt 20]) (PStr "1") PNone.
Proof.
  refine (get_deep_compose
    (RT := sample_runtime (mk_datetime 2020 1 1) 0) _ _ _ "a.b" "1" _ _).
  - discriminate.
  - reflexivity.
Defined.

Lemma get_deep_single_key_witness :
  get_deep (RT := sample_runtime (mk_datetime 2020 1 1) 0)
    (PDict [(PStr "Label", PInt 1); (PStr "Provides", PInt 2)])
    (PStr "Provides") PNone = Ok (PInt 2)
  /\ get_deep (RT := sample_runtime (mk_datetime 2020 1 1) 0)
       (PDict [(PStr "Label", PInt 1); (PStr "Provides", PInt 2)])
       (PStr "Requires") PNone = Ok PNone.
Proof.
  split.
  - refine (proj1 (get_deep_single_key
      (RT := sample_runtime (mk_datetime 2020 1 1) 0)
      [(PStr "Label", PInt 1); (PStr "Provides", PInt 2)] "Provides" PNone _ _)
      (PInt 2) _).
    + reflexivity.
    + discriminate.
    + reflexivity.
  - refine (proj2 (get_deep_single_key
      (RT := sample_runtime (mk_datetime 2020 1 1) 0)
      [(PStr "Label", PInt 1); (PStr "Provides", PInt 2)] "Requires" PNone _ _)
      _ _).
    + reflexivity.
    + discriminate.
    + reflexivity.
    + reflexivity.
Defined.

(** ** Logger *)

Section LoggerMore.
Context {V : Type} `{LR : LoggerRuntime V}.

Lemma relates_bind {A B} (R : logger_state V -> logger_state V -> Prop)
    (m : prog V A) (k : A -> prog V B) :
  (forall st1 st2 st3, R st1 st2 -> R st2 st3 -> R st1 st3) ->
  relates R m -> (forall a, relates R (k a)) -> relates R (m ≫= k).
Proof.
  intros Htrans Hm Hk st res st'. rewrite run_bind.
  destruct (run m st) as [[a|e] st1] eqn:Hrun.
  - intros Hka. eapply Htrans; [eapply Hm; eauto|eapply Hk; eauto].
  - intros [= <- <-]. eapply Hm; eauto.
Qed.

Lemma relates_try {A} (R : logger_state V -> logger_state V -> Prop)
    (body : prog V A) (handles : exc -> bool) (handler : exc -> prog V A) :
  (forall st1 st2 st3, R st1 st2 -> R st2 st3 -> R st1 st3) ->
  relates R body -> (forall e, relates R (handler e)) ->
  relates R (py_try body handles handler).
Proof.
  intros Htrans Hb Hh st res st'. unfold py_try. cbn [run].
  destruct (run body st) as [[a|e] st1] eqn:Hrun.
  - intros [= <- <-]. eapply Hb; eauto.
  - destruct (handles e).
    + intros He. eapply Htrans; [eapply Hb; eauto|eapply Hh; eauto].
    + intros [= <- <-]. eapply Hb; eauto.
Qed.

Lemma logged_refl (st : logger_state V) : logged st st.
Proof. unfold logged. repeat split; reflexivity || lia. Qed.

Lemma logged_trans (st1 st2 st3 : logger_state V) :
  logged st1 st2 -> logged st2 st3 -> logged st1 st3.
Proof.
  unfold logged. intros (? & ? & ? & ? & ?) (? & ? & ? & ? & ?).
  repeat split; try congruence; try lia; etrans; eassumption.
Qed.

Lemma output_write_logged (s : string) : relates (V := V) logged (output_write s).
Proof.
  intros st res st'. unfold output_write, file_write. cbn [run].
  destruct (write_fault _ _ _); intros [= _ <-]; unfold logged; cbn;
    repeat split; try reflexivity; try lia.
  apply prefix_app_r. reflexivity.
Qed.

Lemma stderr_write_logged (s : string) : relates (V := V) logged (stderr_write s).
Proof.
  intros st res st'. unfold stderr_write, file_write. cbn [run].
  destruct (write_fault _ _ _); intros [= _ <-]; unfold logged; cbn;
    repeat split; try reflexivity; try lia.
  apply prefix_app_r. reflexivity.
Qed.

Lemma write_line_logged (record : loc) : relates (V := V) logged (write_line record).
Proof.
  unfold write_line.
  repeat (apply relates_bind; [exact logged_trans| |intros ?]);
    try apply output_write_logged.
  - intros st res st' H. apply dumps_record_frame in H. subst. apply logged_refl.
  - intros st res st' H. apply output_flush_frame in H. subst. apply logged_refl.
  - intros st res st'. cbn. intros [= _ <-]. unfold logged. cbn.
    repeat split; try reflexivity. lia.
Qed.

Lemma log_error_with_logged (log_dict' : loc -> prog V unit) (message : string) :
  (forall record, relates (V := V) logged (log_dict' record)) ->
  relates (V := V) logged (log_error_with log_dict' message).
Proof.
  intros Hld. unfold log_error_with.
  repeat (apply relates_bind; [exact logged_trans| |intros ?]);
    try apply stderr_write_logged; try apply Hld.
  - intros st res st'. cbn. intros [= _ <-]. unfold logged. cbn.
    repeat split; reflexivity.
  - intros st res st'. cbn. intros [= _ <-]. apply logged_refl.
Qed.

Lemma log_dict_logged (depth : nat) :
  forall record, relates (V := V) logged (log_dict depth record).
Proof.
  induction depth as [|depth IH]; intros record.
  - intros st res st'. cbn. intros [= _ <-]. apply logged_refl.
  - cbn [log_dict]. apply relates_bind; [exact logged_trans| |intros _].
    + intros st res st'. unfold record_update. cbn.
      destruct (heap st !! record); intros [= _ <-];
        [unfold logged; cbn; repeat split; reflexivity || lia|apply logged_refl].
    + apply relates_try; [exact logged_trans|apply write_line_logged|].
      intros e. apply relates_bind; [exact logged_trans| |intros _].
      * intros st res st'. cbn. intros [= _ <-]. apply logged_refl.
      * apply log_error_with_logged. exact IH.
Qed.

Lemma write_line_Ok_lines (record : loc) (st st' : logger_state V) :
  run (write_line record) st = (Ok (), st') ->
  lines_written st' = lines_written st + 1.
Proof.
  unfold write_line. rewrite run_bind.
  destruct (run (dumps_record record) st) as [[s|e] st1] eqn:H1; [|discriminate].
  apply dumps_record_frame in H1. subst st1. rewrite run_bind.
  destruct (run (output_write s) st) as [[[]|e] st2] eqn:H2; [|discriminate].
  apply output_write_frame in H2 as (_ & _ & Hl2 & _). rewrite run_bind.
  destruct (run (output_write newline) st2) as [[[]|e] st3] eqn:H3; [|discriminate].
  apply output_write_frame in H3 as (_ & _ & Hl3 & _). rewrite run_bind.
  destruct (run output_flush st3) as [[[]|e] st4] eqn:H4; [|discriminate].
  apply output_flush_frame in H4. subst st4.
  cbn. intros [= <-]. cbn. lia.
Qed.

Lemma stderr_write_lines (s : string) (st st' : logger_state V) (res : result unit) :
  run (stderr_write s) st = (res, st') -> lines_written st' = lines_written st.
Proof.
  unfold stderr_write. cbn. destruct (file_write _ _). intros [= _ <-]. reflexivity.
Qed.

Lemma log_dict_at_most_one_line (depth : nat) :
  forall record (st st' : logger_state V) res,
    run (log_dict depth record) st = (res, st') ->
    lines_written st' <= lines_written st + 1.
Proof.
  induction depth as [|depth IH]; intros record st st' res.
  - cbn. intros [= _ <-]. lia.
  - cbn [log_dict]. rewrite run_bind. unfold record_update at 1. cbn [run].
    destruct (heap st !! record) as [d|]; [|intros [= _ <-]; lia].
    set (st1 := set_heap _ st).
    assert (Hl1 : lines_written st1 = lines_written st) by reflexivity.
    unfold py_try. cbn [run].
    destruct (run (write_line record) st1) as [[[]|e] st2] eqn:Hw.
    + intros [= _ <-]. apply write_line_Ok_lines in Hw. lia.
    + apply write_line_Raise in Hw as (_ & _ & Hl2 & _).
      destruct (is_Exception e); [|intros [= _ <-]; lia].
      rewrite run_bind. cbn [run debugbreak mret prog_ret].
      unfold log_exception_with, log_error_with.
      rewrite run_bind. cbn [run new_dict].
      set (st3 := set_heap _ st2).
      assert (Hl3 : lines_written st3 = lines_written st) by (cbn; lia).
      rewrite run_bind.
      destruct (run (log_dict depth _) st3) as [[[]|e1] st4] eqn:Hn;
        apply IH in Hn; [|intros [= _ <-]; lia].
      rewrite run_bind.
      destruct (run (stderr_write _) st4) as [[[]|e2] st5] eqn:H5;
        apply stderr_write_lines in H5; [|intros [= _ <-]; lia].
      rewrite run_bind.
      destruct (run (stderr_write _) st5) as [[[]|e3] st6] eqn:H6;
        apply stderr_write_lines in H6; [|intros [= _ <-]; lia].
      rewrite run_bind. cbn [run get_extras].
      intros H7. apply stderr_write_lines in H7. lia.
Qed.

(** X12: however a call of [log_dict] ends, it has left the extras and the
    debug flag alone, has only appended to the output file and to
    [sys.stderr], and has counted no line or one line. *)
Theorem log_dict_frame (depth : nat) (record : loc) (st st' : logger_state V)
    (res : result unit) :
  run (log_dict depth record) st = (res, st') ->
  extras st' = extras st
  /\ DEBUG_MODE st' = DEBUG_MODE st
  /\ written (output_file st) `prefix_of` written (output_file st')
  /\ written (stderr st) `prefix_of` written (stderr st')
  /\ lines_written st <= lines_written st' <= lines_written st + 1.
Proof.
  intros Hrun.
  pose proof (log_dict_logged depth record st res st' Hrun)
    as (He & Hd & Ho & Hs & Hl).
  pose proof (log_dict_at_most_one_line depth record st st' res Hrun).
  repeat split; assumption.
Qed.

(** X13: [log_error] emits the record [{osxcollector_error: message}]
    overlaid with the extras as one line and then writes ["[ERROR] "], the
    message and the extras to [sys.stderr], whatever the debug flag, when the
    serialisation and the writes succeed. *)
Theorem log_error_reports (depth : nat) (message : string)
    (st : logger_state V) (s : string) :
  dumps (extras st ∪ {[ "osxcollector_error"%string := str_value message ]}) = Ok s ->
  write_fault (output_file st) (written (output_file st)) s = None ->
  write_fault (output_file st) (written (output_file st) ++ [s]) newline = None ->
  flush_fault (output_file st) (written (output_file st) ++ [s; newline]) = None ->
  write_fault (stderr st) (written (stderr st)) "[ERROR] " = None ->
  write_fault (stderr st) (written (stderr st) ++ ["[ERROR] "%string]) message = None ->
  write_fault (stderr st) (written (stderr st) ++ ["[ERROR] "%string; message])
    (" - " +:+ repr_extras (extras st) +:+ newline) = None ->
  exists st',
    run (log_error (S depth) message) st = (Ok (), st')
    /\ written (output_file st') = written (output_file st) ++ [s; newline]
    /\ lines_written st' = lines_written st + 1
    /\ written (stderr st')
       = written (stderr st)
         ++ ["[ERROR] "%string; message;
             " - " +:+ repr_extras (extras st) +:+ newline]
    /\ extras st' = extras st.
Proof.
  intros Hd Hw1 Hw2 Hf He1 He2 He3.
  unfold log_error, log_error_with. rewrite run_bind. cbn [run new_dict].
  set (l' := fresh (dom (heap st))). set (st2 := set_heap _ st).
  destruct (log_dict_Ok depth l' st2
              {[ "osxcollector_error"%string := str_value message ]} s)
    as (st3 & Hrun3 & _ & Hex3 & Hout3 & _ & _ & Hl3 & Herr3 & _);
    try assumption.
  { cbn. apply lookup_insert_eq. }
  cbn in Hex3, Hout3, Hl3, Herr3.
  rewrite run_bind, Hrun3.
  destruct (stderr_write_Ok "[ERROR] " st3)
    as (st4 & Hrun4 & Hwr4 & Hwf4 & Hex4 & Hl4 & Hout4 & _).
  { rewrite Herr3. exact He1. }
  rewrite run_bind, Hrun4.
  destruct (stderr_write_Ok message st4)
    as (st5 & Hrun5 & Hwr5 & Hwf5 & Hex5 & Hl5 & Hout5 & _).
  { rewrite Hwf4, Hwr4, Herr3. exact He2. }
  rewrite run_bind, Hrun5. rewrite run_bind. cbn [run get_extras].
  destruct (stderr_write_Ok (" - " +:+ repr_extras (extras st5) +:+ newline) st5)
    as (st6 & Hrun6 & Hwr6 & Hwf6 & Hex6 & Hl6 & Hout6 & _).
  { rewrite Hwf5, Hwr5, Hwf4, Hwr4, Herr3, Hex5, Hex4, Hex3.
    rewrite <- app_assoc. exact He3. }
  rewrite Hrun6. exists st6. split; [reflexivity|]. repeat split.
  - rewrite Hout6, Hout5, Hout4. exact Hout3.
  - rewrite Hl6, Hl5, Hl4, Hl3. reflexivity.
  - rewrite Hwr6, Hwr5, Hwr4, Herr3, Hex5, Hex4, Hex3.
    rewrite <- !app_assoc. reflexivity.
  - rewrite Hex6, Hex5, Hex4, Hex3. reflexivity.
Qed.

(** X14: [log_warning] emits the record [{osxcollector_warn: message}]
    overlaid with the extras as one line; it writes to [sys.stderr] only in
    debug mode. *)
Theorem log_warning_reports (depth : nat) (message : string)
    (st : logger_state V) (s : string) :
  dumps (extras st ∪ {[ "osxcollector_warn"%string := str_value message ]}) = Ok s ->
  write_fault (output_file st) (written (output_file st)) s = None ->
  write_fault (output_file st) (written (output_file st) ++ [s]) newline = None ->
  flush_fault (output_file st) (written (output_file st) ++ [s; newline]) = None ->
  (DEBUG_MODE st = true ->
   write_fault (stderr st) (written (stderr st)) "[WARN] " = None
   /\ write_fault (stderr st) (written (stderr st) ++ ["[WARN] "%string]) message = None
   /\ write_fault (stderr st) (written (stderr st) ++ ["[WARN] "%string; message])
        (" - " +:+ repr_extras (extras st) +:+ newline) = None) ->
  exists st',
    run (log_warning (S depth) message) st = (Ok (), st')
    /\ written (output_file st') = written (output_file st) ++ [s; newline]
    /\ lines_written st' = lines_written st + 1
    /\ written (stderr st')
       = written (stderr st)
         ++ (if DEBUG_MODE st
             then ["[WARN] "%string; message;
                   " - " +:+ repr_extras (extras st) +:+ newline]
             else []).
Proof.
  intros Hd Hw1 Hw2 Hf Hdebug.
  unfold log_warning. rewrite run_bind. cbn [run new_dict].
  set (l' := fresh (dom (heap st))). set (st2 := set_heap _ st).
  destruct (log_dict_Ok depth l' st2
              {[ "osxcollector_warn"%string := str_value message ]} s)
    as (st3 & Hrun3 & _ & Hex3 & Hout3 & _ & _ & Hl3 & Herr3 & Hdbg3);
    try assumption.
  { cbn. apply lookup_insert_eq. }
  cbn in Hex3, Hout3, Hl3, Herr3, Hdbg3.
  rewrite run_bind, Hrun3. rewrite run_bind. cbn [run get_DEBUG_MODE].
  rewrite Hdbg3. destruct (DEBUG_MODE st) eqn:Hdbg.
  - destruct (Hdebug eq_refl) as (He1 & He2 & He3).
    destruct (stderr_write_Ok "[WARN] " st3)
      as (st4 & Hrun4 & Hwr4 & Hwf4 & Hex4 & Hl4 & Hout4 & _).
    { rewrite Herr3. exact He1. }
    rewrite run_bind, Hrun4.
    destruct (stderr_write_Ok message st4)
      as (st5 & Hrun5 & Hwr5 & Hwf5 & Hex5 & Hl5 & Hout5 & _).
    { rewrite Hwf4, Hwr4, Herr3. exact He2. }
    rewrite run_bind, Hrun5. rewrite run_bind. cbn [run get_extras].
    destruct (stderr_write_Ok (" - " +:+ repr_extras (extras st5) +:+ newline) st5)
      as (st6 & Hrun6 & Hwr6 & Hwf6 & Hex6 & Hl6 & Hout6 & _).
    { rewrite Hwf5, Hwr5, Hwf4, Hwr4, Herr3, Hex5, Hex4, Hex3.
      rewrite <- app_assoc. exact He3. }
    rewrite Hrun6. exists st6. split; [reflexivity|]. repeat split.
    + rewrite Hout6, Hout5, Hout4. exact Hout3.
    + rewrite Hl6, Hl5, Hl4, Hl3. reflexivity.
    + rewrite Hwr6, Hwr5, Hwr4, Herr3, Hex5, Hex4, Hex3.
      rewrite <- !app_assoc. reflexivity.
  - exists st3. split; [reflexivity|]. repeat split; try assumption.
    rewrite Herr3, app_nil_r. reflexivity.
Qed.

(** *** Scopes *)

Lemma Extra__enter__quiet (self : Extra V) (st : logger_state V) :
  DEBUG_MODE st = false ->
  run (Extra__enter__ self) st
  = (Ok (), set_extras (<[key self := val self]> (extras st)) st).
Proof.
  intros Hd. unfold Extra__enter__. rewrite run_bind. cbn [run].
  rewrite run_bind. cbn [run get_DEBUG_MODE DEBUG_MODE set_extras].
  rewrite Hd. reflexivity.
Qed.

Lemma with_Extra_run {A} (k : string) (v : V) (body : prog V A)
    (st st2 : logger_state V) (res : result A) :
  DEBUG_MODE st = false ->
  run body (set_extras (<[k := v]> (extras st)) st) = (res, st2) ->
  extras st2 = <[k := v]> (extras st) ->
  run (with_Extra k v body) st = (res, set_extras (delete k (extras st)) st2).
Proof.
  intros Hd Hbody Hex. unfold with_Extra.
  rewrite run_bind, Extra__enter__quiet by assumption. cbn [run key val].
  rewrite Hbody.
  assert (Hexit : run (Extra__exit__ {| key := k; val := v |}) st2
                  = (Ok (), set_extras (delete k (extras st)) st2)).
  { unfold Extra__exit__. cbn [run key]. rewrite Hex.
    rewrite lookup_insert_eq, delete_insert_eq. reflexivity. }
  destruct res as [a|e]; rewrite run_bind, Hexit; reflexivity.
Qed.

(** X15: scopes on two different keys, both absent before, nest: the body
    sees both keys, and when it has left the extras as they were at its
    start, the extras are afterwards exactly what they were before the outer
    scope, whether the body returned or raised. *)
Theorem with_Extra_nested {A} (k1 k2 : string) (v1 v2 : V) (body : prog V A)
    (st st2 : logger_state V) (res : result A) :
  k1 <> k2 ->
  DEBUG_MODE st = false ->
  extras st !! k1 = None ->
  extras st !! k2 = None ->
  run body (set_extras (<[k2 := v2]> (<[k1 := v1]> (extras st))) st) = (res, st2) ->
  extras st2 = <[k2 := v2]> (<[k1 := v1]> (extras st)) ->
  run (with_Extra k1 v1 (with_Extra k2 v2 body)) st
  = (res, set_extras (extras st) st2).
Proof.
  intros Hne Hd H1 H2 Hbody Hex.
  rewrite (with_Extra_run k1 v1 _ st
             (set_extras (<[k1 := v1]> (extras st)) st2) res).
  - cbn. rewrite delete_id by assumption. reflexivity.
  - exact Hd.
  - rewrite (with_Extra_run k2 v2 body _ st2 res).
    + cbn. rewrite delete_insert_ne by auto.
      rewrite (delete_id (extras st)) by assumption. reflexivity.
    + exact Hd.
    + exact Hbody.
    + exact Hex.
  - reflexivity.
Qed.

End LoggerMore.

(** ** Collector *)

Section CollectorMore.
Context {V : Type} `{LR : LoggerRuntime V}.

Lemma same_context_refl (st : logger_state V) : same_context st st.
Proof. split; reflexivity. Qed.

Lemma same_context_trans (st1 st2 st3 : logger_state V) :
  same_context st1 st2 -> same_context st2 st3 -> same_context st1 st3.
Proof. unfold same_context. intuition congruence. Qed.

Lemma log_exception_same_context (depth : nat) (e : exc) (message : string) :
  relates (V := V) same_context (log_exception depth e message).
Proof.
  intros st res st' Hrun.
  unfold log_exception, log_exception_with in Hrun.
  apply (log_error_with_logged (log_dict depth) _ (log_dict_logged depth)) in Hrun.
  destruct Hrun as (He & Hd & _). split; assumption.
Qed.

(** A scope on a key that is absent, around a body that leaves the context
    alone, leaves the context alone. *)
Lemma with_Extra_same_context {A} (k : string) (v : V) (body : prog V A) :
  relates (V := V) same_context body ->
  forall st res st',
    extras st !! k = None ->
    DEBUG_MODE st = false ->
    run (with_Extra k v body) st = (res, st') ->
    same_context st st'.
Proof.
  intros Hbody st res st' Hk Hd.
  destruct (run body (set_extras (<[k := v]> (extras st)) st))
    as [r st2] eqn:Hrun.
  destruct (Hbody _ _ _ Hrun) as [Hex Hdbg]. cbn in Hex, Hdbg.
  rewrite (with_Extra_run k v body st st2 r Hd Hrun Hex).
  intros [= _ <-]. split; cbn; [|exact Hdbg].
  apply delete_id. exact Hk.
Qed.

(** X16: [_foreach_homedir] leaves the extras as it found them, however it
    ends, when the decorated method does: the user name it adds for each
    home directory is gone afterwards. *)
Theorem foreach_homedir_restores_extras (depth : nat)
    (func : HomeDir -> prog V unit) (homedirs : list HomeDir)
    (st st' : logger_state V) (res : result unit) :
  (forall homedir, relates (V := V) same_context (func homedir)) ->
  extras st !! "osxcollector_username"%string = None ->
  DEBUG_MODE st = false ->
  run (_foreach_homedir depth func homedirs) st = (res, st') ->
  extras st' = extras st /\ DEBUG_MODE st' = DEBUG_MODE st.
Proof.
  intros Hfunc. revert st.
  induction homedirs as [|homedir homedirs IH]; intros st Hk Hd.
  - cbn. intros [= _ <-]. split; reflexivity.
  - cbn [_foreach_homedir]. rewrite run_bind.
    destruct (run (with_Extra _ _ _) st) as [r st1] eqn:Hrun.
    apply with_Extra_same_context in Hrun as [Hex1 Hd1]; try assumption.
    + destruct r as [[]|e].
      * intros Hrest. apply IH in Hrest as [Hex Hdbg].
        -- split; congruence.
        -- rewrite Hex1. exact Hk.
        -- rewrite Hd1. exact Hd.
      * intros [= _ <-]. split; assumption.
    + apply relates_try; [exact same_context_trans|apply Hfunc|].
      intros e. apply log_exception_same_context.
Qed.

Lemma collect_sections_same_context (depth : nat) (section_list : list string)
    (secs : list (string * prog V unit)) :
  Forall (fun s => relates (V := V) same_context (snd s)) secs ->
  forall st res st',
    extras st !! "osxcollector_section"%string = None ->
    DEBUG_MODE st = false ->
    run (collect_sections depth section_list secs) st = (res, st') ->
    same_context st st'.
Proof.
  induction 1 as [|[name method] secs Hm _ IH]; intros st res st' Hk Hd.
  - cbn. intros [= _ <-]. apply same_context_refl.
  - cbn [collect_sections]. rewrite run_bind.
    destruct (run (with_Extra _ _ _) st) as [r st1] eqn:Hrun.
    apply with_Extra_same_context in Hrun as [Hex1 Hd1]; try assumption.
    + destruct r as [[]|e].
      * intros Hrest. apply IH in Hrest as [Hex Hdbg].
        -- split; congruence.
        -- rewrite Hex1. exact Hk.
        -- rewrite Hd1. exact Hd.
      * intros [= _ <-]. split; assumption.
    + destruct (_ && _).
      * intros st0 r0 st0'. cbn. intros [= _ <-]. apply same_context_refl.
      * apply relates_try; [exact same_context_trans|exact Hm|].
        intros e. apply relates_bind; [exact same_context_trans| |intros _].
        -- intros st0 r0 st0'. cbn. intros [= _ <-]. apply same_context_refl.
        -- apply log_exception_same_context.
Qed.

(** X17: [collect] leaves the extras as it found them, however it ends,
    when the collection methods do: no section name stays behind. *)
Theorem collect_restores_extras (depth : nat) (self : Collector)
    (section_list : list string) (st st' : logger_state V) (res : result unit) :
  Forall (fun s => relates (V := V) same_context (snd s)) (sections self) ->
  extras st !! "osxcollector_section"%string = None ->
  DEBUG_MODE st = false ->
  run (collect depth self section_list) st = (res, st') ->
  extras st' = extras st /\ DEBUG_MODE st' = DEBUG_MODE st.
Proof.
  intros Hm Hk Hd Hrun.
  apply (collect_sections_same_context depth section_list _ Hm st res st' Hk Hd Hrun).
Qed.

Lemma collect_sections_only_listed (depth : nat) (section_list : list string)
    (secs secs' : list (string * prog V unit)) :
  section_list <> [] ->
  Forall2 (fun s s' => fst s = fst s'
                       /\ (fst s ∈ section_list -> snd s = snd s')) secs secs' ->
  collect_sections depth section_list secs
  = collect_sections depth section_list secs'.
Proof.
  intros Hne. induction 1 as [|[name m] [name' m'] secs secs' [Hn Hm] _ IH].
  - reflexivity.
  - cbn in Hn, Hm. subst name'. cbn [collect_sections]. rewrite IH.
    rewrite (bool_decide_eq_false_2 (section_list = [])) by assumption.
    cbn [negb andb].
    destruct (decide (name ∈ section_list)) as [Hin|Hnin].
    + rewrite (Hm Hin). reflexivity.
    + rewrite (bool_decide_eq_true_2 (name ∉ section_list)) by assumption.
      reflexivity.
Qed.

(** X18: with a non-empty [section_list], [collect] runs only the listed
    sections: two collectors whose listed methods are the same collect the
    same, whatever their other methods are. *)
Theorem collect_only_listed (depth : nat) (self self' : Collector)
    (section_list : list string) :
  section_list <> [] ->
  Forall2 (fun s s' => fst s ∈ section_list -> snd s = snd s')
    (sections self) (sections self') ->
  collect depth self section_list = collect depth self' section_list.
Proof.
  intros Hne Hf. unfold collect.
  apply collect_sections_only_listed; [exact Hne|].
  unfold sections in *.
  repeat match goal with
  | H : Forall2 _ (_ :: _) (_ :: _) |- _ =>
      apply Forall2_cons_1 in H as [? H]
  end.
  repeat (constructor; [split; [reflexivity|assumption]|]). constructor.
Qed.

End CollectorMore.

(** ** Paths and directories *)

Lemma startswith_refl (s : string) : startswith s s = true.
Proof.
  induction s as [|a s IH]; [reflexivity|]. cbn.
  rewrite bool_decide_eq_true_2 by reflexivity. exact IH.
Qed.

Lemma startswith_app (s t prefix : string) :
  startswith s prefix = true -> startswith (s +:+ t) prefix = true.
Proof.
  revert s. induction prefix as [|a prefix IH]; intros s Hs.
  { destruct (s +:+ t); reflexivity. }
  destruct s as [|b s]; [discriminate|].
  change (String b s +:+ t) with (String b (s +:+ t)). cbn in *.
  apply andb_prop in Hs as [Hab Hs]. rewrite Hab. cbn. apply IH. exact Hs.
Qed.

Lemma startswith_nil (s : string) : startswith s "" = true.
Proof. destruct s; reflexivity. Qed.

Lemma startswith_cons (a b : ascii) (s prefix : string) :
  startswith (String b s) (String a prefix)
  = bool_decide (a = b) && startswith s prefix.
Proof. reflexivity. Qed.

Lemma relative_path_no_slash (arg : string) :
  startswith arg "//" = false -> startswith (_relative_path arg) "/" = false.
Proof.
  unfold _relative_path.
  destruct (startswith arg "/") eqn:Hs; [|intros _; exact Hs].
  destruct arg as [|a arg]; [discriminate|].
  rewrite startswith_cons, startswith_nil, andb_true_r in Hs.
  rewrite startswith_cons, Hs. exact id.
Qed.

Lemma os_path_join_prefix (a : string) (p : list string) :
  Forall (fun b => startswith b "/" = false) p ->
  startswith (os_path_join a p) a = true.
Proof.
  unfold os_path_join.
  assert (H : forall path, startswith path a = true ->
            Forall (fun b => startswith b "/" = false) p ->
            startswith
              (fold_left
                 (fun path b =>
                    if startswith b "/" then b
                    else if bool_decide (path = ""%string) || endswith path "/"
                         then path +:+ b
                         else path +:+ "/" +:+ b) p path) a = true).
  { induction p as [|b p IH]; intros path Hp Hall; [exact Hp|].
    inversion Hall as [|? ? Hb Hall']; subst. cbn [fold_left]. rewrite Hb.
    apply IH; [|exact Hall'].
    destruct (_ || _); apply startswith_app; exact Hp. }
  apply H. apply startswith_refl.
Qed.

(** X19: [pathjoin] stays under its first argument: whatever the other
    arguments are, absolute or not, the result starts with [path], as long
    as none of them starts with two slashes. *)
Theorem pathjoin_keeps_root (path : string) (args : list string) :
  Forall (fun arg => startswith arg "//" = false) args ->
  startswith (pathjoin path args) path = true.
Proof.
  intros Hall. unfold pathjoin.
  destruct args as [|arg args]; [apply startswith_refl|].
  apply os_path_join_prefix.
  apply Forall_fmap. eapply Forall_impl; [exact Hall|].
  intros arg0. apply relative_path_no_slash.
Qed.

(** X20: [pathjoin] takes an argument with a leading slash as the same
    relative path without it. *)
Theorem pathjoin_leading_slash (path : string) (args : list string) :
  Forall (fun arg => startswith arg "/" = false) args ->
  pathjoin path (map (String "/"%char) args) = pathjoin path args.
Proof.
  intros Hall. unfold pathjoin.
  assert (Hmap : map _relative_path (map (String "/"%char) args)
                 = map _relative_path args).
  { induction Hall as [|arg args Harg _ IH]; [reflexivity|].
    cbn [map]. rewrite IH. f_equal.
    unfold _relative_path at 2. rewrite Harg.
    unfold _relative_path. rewrite startswith_cons, startswith_nil.
    rewrite bool_decide_eq_true_2 by reflexivity. reflexivity. }
  destruct args as [|arg args]; [reflexivity|].
  cbn [map] in *. rewrite Hmap. reflexivity.
Qed.

Section DirectoriesMore.
Context `{FS : FileSystem}.

(** X21: [listdir] gives the entries of a directory in the order of
    [os.listdir], without [.DS_Store] and [.localized]; for what is not a
    directory it gives the empty list; it raises only when [os.listdir]
    does. *)
Theorem listdir_entries (dir_path : string) :
  (os_path_isdir dir_path = false -> listdir dir_path = Ok []) /\
  (forall vals, os_path_isdir dir_path = true ->
     os_listdir dir_path = Ok vals ->
     exists names,
       listdir dir_path = Ok names
       /\ names `sublist_of` vals
       /\ (forall name, name ∈ names <->
             name ∈ vals /\ name <> ".DS_Store"%string
             /\ name <> ".localized"%string)) /\
  (forall e, listdir dir_path = Raise e ->
     os_path_isdir dir_path = true /\ os_listdir dir_path = Raise e).
Proof.
  unfold listdir. repeat split.
  - intros ->. reflexivity.
  - intros vals -> ->. cbn. eexists. split; [reflexivity|]. split.
    + apply sublist_filter.
    + intros name. rewrite list_elem_of_filter. unfold ignored_files.
      rewrite !not_elem_of_cons. pose proof (not_elem_of_nil name). tauto.
  - destruct (os_path_isdir dir_path); [reflexivity|discriminate].
  - destruct (os_path_isdir dir_path); cbn in *; [|discriminate].
    destruct (os_listdir dir_path); cbn in *; congruence.
Qed.

(** X22: [_get_homedirs] makes one [HomeDir] for each entry of
    [ROOT_PATH/Users] that does not start with a dot (and is not
    [.localized] or [.DS_Store]), in the order of the directory, with the
    path [ROOT_PATH/Users/user_name]. *)
Theorem get_homedirs_entries (ROOT_PATH : string) (vals : list string) :
  os_path_isdir (pathjoin ROOT_PATH ["Users"%string]) = true ->
  os_listdir (pathjoin ROOT_PATH ["Users"%string]) = Ok vals ->
  exists homedirs,
    _get_homedirs ROOT_PATH = Ok homedirs
    /\ map user_name homedirs
       = filter (fun name => negb (startswith name ".")) vals
    /\ Forall (fun homedir =>
                 path homedir
                 = pathjoin ROOT_PATH ["Users"%string; user_name homedir]
                 /\ startswith (user_name homedir) "." = false
                 /\ user_name homedir ∈ vals) homedirs.
Proof.
  intros Hd Hl. unfold _get_homedirs, listdir. rewrite Hd, Hl. cbn.
  eexists. split; [reflexivity|]. split.
  - rewrite map_map. cbn. rewrite map_id. clear Hl.
    induction vals as [|val vals IH]; [reflexivity|].
    rewrite (filter_cons _ val vals).
    destruct (decide (val ∉ ignored_files)) as [Hok|Hbad].
    + rewrite !filter_cons. destruct (decide _); [|exact IH].
      f_equal. exact IH.
    + rewrite filter_cons.
      destruct (decide (negb (startswith val "."))) as [Hdot|Hdot]; [|exact IH].
      exfalso. apply Hbad. unfold ignored_files.
      rewrite !not_elem_of_cons.
      repeat split; try apply not_elem_of_nil; intros ->; apply Hdot.
  - apply Forall_forall. intros homedir Hin.
    apply list_elem_of_In, in_map_iff in Hin as (name & <- & Hin).
    apply list_elem_of_In, list_elem_of_filter in Hin as [Hdot Hin].
    apply list_elem_of_filter in Hin as [_ Hin]. cbn.
    repeat split; [|exact Hin].
    destruct (startswith name "."); [contradiction|reflexivity].
Qed.

End DirectoriesMore.

(** ** File information *)

Section HashFileMore.
Context `{HL : Hashlib}.

Lemma hash_file_three (open_rb : string -> result open_file)
    (file_path : string) :
  exists md5_hash sha1_hash sha2_hash,
    _hash_file open_rb file_path = Ok [md5_hash; sha1_hash; sha2_hash].
Proof.
  unfold _hash_file, try_except.
  destruct (open_rb file_path) as [f|e]; cbn [mbind result_bind].
  - destruct (hash_chunks f [md5; sha1; sha256]) as [hs|e] eqn:Hh; cbn.
    + apply hash_chunks_fed in Hh. subst hs. cbn. do 3 eexists. reflexivity.
    + do 3 eexists. reflexivity.
  - do 3 eexists. reflexivity.
Qed.

(** X23: for a file that opens, [_hash_file] returns the md5, sha1 and
    sha256 digests of the bytes read up to the end of the file when every
    read succeeds, and three empty strings as soon as one read fails: it
    never returns the digests of a part of the file. *)
Theorem hash_file_all_or_nothing (open_rb : string -> result open_file)
    (file_path : string) (f : open_file) :
  open_rb file_path = Ok f ->
  _hash_file open_rb file_path
  = Ok (if reads_succeed f
        then [digest MD5 (file_content f); digest SHA1 (file_content f);
              digest SHA256 (file_content f)]
        else [""; ""; ""]%string).
Proof.
  intros Ho. unfold _hash_file, try_except. rewrite Ho.
  cbn [mbind result_bind].
  pose proof (hash_chunks_reads f [md5; sha1; sha256]) as Hr.
  destruct (reads_succeed f); destruct Hr as [x Hh]; rewrite Hh.
  - apply hash_chunks_fed in Hh. subst x. reflexivity.
  - reflexivity.
Qed.

End HashFileMore.

Lemma hash_file_all_or_nothing_witness :
  _hash_file (HL := sample_hashlib)
    (fun _ => Ok [Ok "ab"; Ok "c"; Ok ""; Raise IOError]%string) "/bin/ls"
  = Ok ["md5:abc"; "sha1:abc"; "sha256:abc"]%string
  /\ _hash_file (HL := sample_hashlib)
       (fun _ => Ok [Ok "ab"; Raise IOError; Ok "c"]%string) "/bin/ls"
     = Ok [""; ""; ""]%string.
Proof.
  split.
  - exact (hash_file_all_or_nothing (HL := sample_hashlib)
             (fun _ => Ok [Ok "ab"; Ok "c"; Ok ""; Raise IOError]%string)
             "/bin/ls" _ eq_refl).
  - exact (hash_file_all_or_nothing (HL := sample_hashlib)
             (fun _ => Ok [Ok "ab"; Raise IOError; Ok "c"]%string)
             "/bin/ls" _ eq_refl).
Defined.

Section FileInfoMore.
Context {F : Type} `{HL : Hashlib} `{FS : FileSystem}.

(** X24: the record [_get_file_info] returns has exactly the keys [md5],
    [sha1], [sha2], [file_path], [mtime] and [ctime]; [file_path] is the
    argument, the digests are strings, and each time is a string or
    [None]. *)
Theorem get_file_info_record (file_path : string)
    (info : gmap string (pyval F)) :
  _get_file_info file_path = Ok info ->
  (forall k, is_Some (info !! k) <-> k ∈ file_info_keys)
  /\ info !! "file_path"%string = Some (PStr file_path)
  /\ (forall k, k ∈ ["md5"; "sha1"; "sha2"]%string ->
        exists s, info !! k = Some (PStr s))
  /\ (forall k, k ∈ ["mtime"; "ctime"]%string ->
        info !! k = Some PNone \/ exists s, info !! k = Some (PStr s)).
Proof.
  unfold _get_file_info.
  set (fields := if os_path_isfile file_path then _ else _).
  assert (Hf : forall v, fields = Ok v ->
            exists a b c (m t : pyval F),
              v = (PStr a, PStr b, PStr c, m, t)
              /\ (m = PNone \/ exists s, m = PStr s)
              /\ (t = PNone \/ exists s, t = PStr s)).
  { subst fields. intros v.
    assert (Hdt : forall dt, _datetime_to_string (F := F) dt = PNone
                             \/ exists s, _datetime_to_string (F := F) dt = PStr s).
    { intros dt. unfold _datetime_to_string.
      destruct (dt_year dt <? 1900); [left|right; eexists]; reflexivity. }
    destruct (os_path_isfile file_path).
    - destruct (file_mtime file_path) as [m|e]; cbn; [|discriminate].
      destruct (file_ctime file_path) as [c|e]; cbn; [|discriminate].
      destruct (hash_file_three open_rb file_path) as (a & b & c' & ->). cbn.
      intros [= <-]. exists a, b, c'. do 2 eexists. split; [reflexivity|].
      split; apply Hdt.
    - intros [= <-]. exists ""%string, ""%string, ""%string. do 2 eexists.
      split; [reflexivity|]. split; right; eexists; reflexivity. }
  destruct fields as [v|e]; cbn; [|discriminate].
  destruct (Hf v eq_refl) as (a & b & c & m & t & -> & Hm & Ht). cbn.
  intros [= <-]. split; [|split; [|split]].
  - intros k. rewrite !lookup_insert_is_Some. unfold file_info_keys.
    rewrite !elem_of_cons, elem_of_nil.
    pose proof (lookup_empty_is_Some (M := gmap string) (A := pyval F) k).
    intuition congruence.
  - reflexivity.
  - intros k. rewrite !elem_of_cons, elem_of_nil.
    intros [-> | [-> | [-> | []]]]; eexists; reflexivity.
  - intros k. rewrite !elem_of_cons, elem_of_nil.
    intros [-> | [-> | []]].
    + change (Some m = Some PNone \/ exists s, Some m = Some (PStr s)).
      destruct Hm as [-> | [s ->]]; eauto.
    + change (Some t = Some PNone \/ exists s, Some t = Some (PStr s)).
      destruct Ht as [-> | [s ->]]; eauto.
Qed.

(** X25: [_get_file_info] raises exactly when the path is a file and one of
    its two times cannot be read; a file that cannot be opened or read does
    not make it raise. *)
Theorem get_file_info_raises (file_path : string) (e : exc) :
  _get_file_info (F := F) file_path = Raise e <->
  os_path_isfile file_path = true
  /\ (file_mtime file_path = Raise e
      \/ (exists mtime, file_mtime file_path = Ok mtime)
         /\ file_ctime file_path = Raise e).
Proof.
  unfold _get_file_info.
  destruct (os_path_isfile file_path).
  - destruct (file_mtime file_path) as [m|e1]; cbn.
    + destruct (file_ctime file_path) as [c|e2]; cbn.
      * destruct (hash_file_three open_rb file_path) as (a & b & c' & ->). cbn.
        split; [discriminate|]. intros [_ [H | [_ H]]]; discriminate.
      * split.
        -- intros [= ->]. split; [reflexivity|]. right. split; eauto.
        -- intros [_ [H | [_ H]]]; [discriminate|]. congruence.
    + split.
      * intros [= ->]. split; [reflexivity|]. left. reflexivity.
      * intros [_ [H | [[m H] _]]]; [congruence|discriminate].
  - cbn. split; [discriminate|]. intros [H _]. discriminate.
Qed.

(** X26: for a file whose times can be read, the record has the two times
    formatted by [_datetime_to_string] and the digests of [_hash_file]:
    those of the content, or three empty strings when the file cannot be
    opened or read. *)
Theorem get_file_info_of_file (file_path : string) (mtime ctime : datetime)
    (digests : string * string * string) :
  os_path_isfile file_path = true ->
  file_mtime file_path = Ok mtime ->
  file_ctime file_path = Ok ctime ->
  digests
  = match open_rb file_path with
    | Ok f =>
        if reads_succeed f
        then (digest MD5 (file_content f), digest SHA1 (file_content f),
              digest SHA256 (file_content f))
        else (""%string, ""%string, ""%string)
    | Raise _ => (""%string, ""%string, ""%string)
    end ->
  _get_file_info (F := F) file_path
  = Ok (<["md5"%string := PStr digests.1.1]>
          (<["sha1"%string := PStr digests.1.2]>
             (<["sha2"%string := PStr digests.2]>
                (<["file_path"%string := PStr file_path]>
                   (<["mtime"%string := _datetime_to_string mtime]>
                      (<["ctime"%string := _datetime_to_string ctime]> ∅)))))).
Proof.
  intros Hfile Hm Hc ->. unfold _get_file_info. rewrite Hfile, Hm, Hc. cbn.
  unfold _hash_file, try_except.
  destruct (open_rb file_path) as [f|e]; cbn [mbind result_bind].
  - pose proof (hash_chunks_reads f [md5; sha1; sha256]) as Hr.
    destruct (reads_succeed f); destruct Hr as [x Hh]; rewrite Hh.
    + apply hash_chunks_fed in Hh. subst x. reflexivity.
    + reflexivity.
  - reflexivity.
Qed.

End FileInfoMore.

(** ** Examples of the further properties *)

Lemma pathjoin_keeps_root_witness :
  startswith (pathjoin "/mnt/disk" ["/Users"; "ivanlei/"; "../../etc"])
    "/mnt/disk" = true.
Proof.
  apply (pathjoin_keeps_root "/mnt/disk" ["/Users"; "ivanlei/"; "../../etc"]).
  repeat constructor.
Defined.

Lemma pathjoin_leading_slash_witness :
  pathjoin "/mnt/disk" (map (String "/"%char) ["Users"; "ivanlei"])
  = pathjoin "/mnt/disk" ["Users"; "ivanlei"].
Proof.
  apply (pathjoin_leading_slash "/mnt/disk" ["Users"; "ivanlei"]).
  repeat constructor.
Defined.

Lemma get_homedirs_entries_witness :
  exists homedirs,
    _get_homedirs (FS := sample_filesystem) "/" = Ok homedirs
    /\ map user_name homedirs = ["Shared"; "ivanlei"]%string.
Proof.
  destruct (get_homedirs_entries (FS := sample_filesystem) "/"
              [".localized"; "Shared"; ".DS_Store"; "ivanlei"; ".hidden"]%string
              eq_refl eq_refl) as (homedirs & Hrun & Hnames & _).
  exists homedirs. split; [exact Hrun|exact Hnames].
Defined.

Lemma get_file_info_record_witness :
  exists info,
    _get_file_info (F := Z) (HL := sample_hashlib) (FS := sample_filesystem)
      "/Users/ivanlei/.bashrc" = Ok info
    /\ info !! "file_path"%string = Some (PStr "/Users/ivanlei/.bashrc").
Proof.
  eexists. split; [reflexivity|].
  refine (proj1 (proj2 (get_file_info_record (F := Z) (HL := sample_hashlib)
    (FS := sample_filesystem) "/Users/ivanlei/.bashrc" _ _))).
  reflexivity.
Defined.

Lemma get_file_info_of_file_witness :
  _get_file_info (F := Z) (HL := sample_hashlib) (FS := sample_filesystem)
    "/Users/ivanlei/.bashrc"
  = Ok (<["md5"%string := PStr "md5:export A=1"]>
          (<["sha1"%string := PStr "sha1:export A=1"]>
             (<["sha2"%string := PStr "sha256:export A=1"]>
                (<["file_path"%string := PStr "/Users/ivanlei/.bashrc"]>
                   (<["mtime"%string := PStr "2014-03-01 00:00:00"]>
                      (<["ctime"%string := PNone]> ∅)))))).
Proof.
  exact (get_file_info_of_file (F := Z) (HL := sample_hashlib)
           (FS := sample_filesystem) "/Users/ivanlei/.bashrc"
           (mk_datetime 2014 3 1) (mk_datetime 1899 12 31)
           ("md5:export A=1", "sha1:export A=1", "sha256:export A=1")%string
           eq_refl eq_refl eq_refl eq_refl).
Defined.

Section MoreExamples.
#[local] Existing Instance sample_logger_runtime.

Lemma log_dict_frame_witness :
  lines_written
    (run (log_dict 2 1%positive)
       (sample_state [ {[ "k"%string := Some "v"%string ]} ] broken_file)).2
  <= 1.
Proof.
  destruct (log_dict_frame 2 1%positive
    (sample_state [ {[ "k"%string := Some "v"%string ]} ] broken_file)
    _ _ (surjective_pairing _)) as (_ & _ & _ & _ & _ & Hle).
  exact Hle.
Defined.

Lemma log_error_reports_witness :
  exists st',
    run (log_error 1 "no launch agents") (sample_state [] good_file)
    = (Ok (), st')
    /\ lines_written st' = 1
    /\ length (written (stderr st')) = 3%nat.
Proof.
  destruct (log_error_reports 0 "no launch agents" (sample_state [] good_file)
    (default ""%string
       (match sample_dumps
                {[ "osxcollector_error"%string := Some "no launch agents"%string ]}
        with
        | Ok s => Some s
        | Raise _ => None
        end)))
    as (st' & Hrun & _ & Hl & Herr & _).
  - vm_compute. reflexivity.
  - reflexivity.
  - reflexivity.
  - reflexivity.
  - reflexivity.
  - reflexivity.
  - reflexivity.
  - exists st'. split; [exact Hrun|]. split; [exact Hl|].
    rewrite Herr. reflexivity.
Defined.

Lemma log_warning_reports_witness :
  exists st',
    run (log_warning 1 "no history") (sample_state [] good_file)
    = (Ok (), st')
    /\ lines_written st' = 1
    /\ written (stderr st') = [].
Proof.
  destruct (log_warning_reports 0 "no history" (sample_state [] good_file)
    (default ""%string
       (match sample_dumps
                {[ "osxcollector_warn"%string := Some "no history"%string ]}
        with
        | Ok s => Some s
        | Raise _ => None
        end)))
    as (st' & Hrun & _ & Hl & Herr).
  - vm_compute. reflexivity.
  - reflexivity.
  - reflexivity.
  - reflexivity.
  - intros Hdebug. discriminate Hdebug.
  - exists st'. split; [exact Hrun|]. split; [exact Hl|exact Herr].
Defined.

Lemma with_Extra_nested_witness :
  extras
    (run (with_Extra "osxcollector_section" (Some "chrome"%string)
            (with_Extra "osxcollector_username" (Some "ivanlei"%string)
               (log_dict 1 1%positive)))
       (sample_state [ {[ "k"%string := Some "v"%string ]} ] good_file)).2
  = ∅.
Proof.
  rewrite (with_Extra_nested "osxcollector_section" "osxcollector_username"
    (Some "chrome"%string) (Some "ivanlei"%string) (log_dict 1 1%positive)
    (sample_state [ {[ "k"%string := Some "v"%string ]} ] good_file)
    _ _ ltac:(discriminate) eq_refl eq_refl eq_refl (surjective_pairing _)).
  - reflexivity.
  - vm_compute. reflexivity.
Defined.

Lemma sample_homedir_method_same_context (homedir : HomeDir) :
  relates same_context (sample_homedir_method homedir).
Proof.
  intros st res st' Hrun. unfold sample_homedir_method in Hrun.
  destruct (bool_decide _).
  - injection Hrun as _ <-. apply same_context_refl.
  - apply (log_error_with_logged (log_dict 1) _ (log_dict_logged 1)) in Hrun.
    destruct Hrun as (He & Hd & _). split; assumption.
Defined.

Lemma foreach_homedir_restores_extras_witness :
  extras
    (run (_foreach_homedir 2 sample_homedir_method
            [ {| user_name := "Shared"; path := "/Users/Shared" |};
              {| user_name := "ivanlei"; path := "/Users/ivanlei" |} ])
       (sample_state [] good_file)).2
  = ∅.
Proof.
  exact (proj1 (foreach_homedir_restores_extras 2 sample_homedir_method
    [ {| user_name := "Shared"; path := "/Users/Shared" |};
      {| user_name := "ivanlei"; path := "/Users/ivanlei" |} ]
    (sample_state [] good_file) _ _
    sample_homedir_method_same_context eq_refl eq_refl (surjective_pairing _))).
Defined.

Lemma sample_collector_same_context :
  Forall (fun s => relates same_context (snd s))
    (sections (sample_collector (raise KeyError))).
Proof.
  unfold sections. repeat (apply Forall_cons_2 || apply Forall_nil_2); cbn [snd];
    try (intros st res st' [= _ <-]; apply same_context_refl).
  intros st res st' Hrun.
  apply (log_error_with_logged (log_dict 1) _ (log_dict_logged 1)) in Hrun.
  destruct Hrun as (He & Hd & _). split; assumption.
Defined.

Lemma collect_restores_extras_witness :
  extras
    (run (collect 2 (sample_collector (raise KeyError)) [])
       (sample_state [] good_file)).2
  = ∅.
Proof.
  exact (proj1 (collect_restores_extras 2 (sample_collector (raise KeyError)) []
    (sample_state [] good_file) _ _
    sample_collector_same_context eq_refl eq_refl (surjective_pairing _))).
Defined.

Lemma collect_only_listed_witness :
  collect 2 (sample_collector (mret ())) ["startup"; "quarantines"]%string
  = collect 2 (sample_collector (raise KeyError)) ["startup"; "quarantines"]%string.
Proof.
  apply (collect_only_listed 2 (sample_collector (mret ()))
           (sample_collector (raise KeyError)) ["startup"; "quarantines"]%string).
  - discriminate.
  - unfold sections.
    repeat (apply List.Forall2_cons || apply List.Forall2_nil);
      cbn [fst snd]; intros Hin; try reflexivity.
    apply elem_of_cons in Hin as [Hin|Hin]; [discriminate|].
    apply elem_of_cons in Hin as [Hin|Hin]; [discriminate|].
    inversion Hin.
Defined.

End MoreExamples.
